(** * The demonstration notebook [experiments/demo/demo.ipynb]

    A shallow embedding of the two code cells of the notebook: the
    construction of the structure-tensor profile, its conversion to
    spectral coefficients, and the calls into the layer-stack and
    plotting libraries.

    Floating-point numbers are idealised as rationals ([Q]); complex
    numbers are pairs of rationals.  numpy's array primitives are
    written out with the checks numpy performs (index in range, shapes
    compatible), raising the exception numpy raises.  The functions of
    the layer-stack and plotting libraries are parameters of the
    script: pure functions that return a value or raise.  They come in
    two interfaces: [Externals], for libraries whose values have the
    form the notebook expects, and [RawExternals], which leaves the
    form of the returned values open. *)

From Stdlib Require Import QArith Lqa ZArith Lia.
From stdpp Require Import base option list vector strings.

Local Open Scope Q_scope.

(** ** Numbers *)

Record complex := Cplx { re : Q; im : Q }.

(** The complex number a Python real literal converts to. *)
Definition of_real (x : Q) : complex := Cplx x 0.

Definition czero : complex := of_real 0.

(** Python's [int(x)] on a float: truncation toward zero. *)
Definition py_int (x : Q) : Z := Z.quot (Qnum x) (Zpos (Qden x)).

(** Python's index normalisation for a sequence of length [n]: a
    negative index counts from the end; out of range is an IndexError. *)
Definition py_index (n : nat) (i : Z) : option nat :=
  let j := (if i <? 0 then i + Z.of_nat n else i)%Z in
  if ((0 <=? j) && (j <? Z.of_nat n))%Z then Some (Z.to_nat j) else None.

(** ** Exceptions *)

Inductive exn :=
  | IndexError
  | ValueError
  | NameError
  | OtherError (msg : string).

Inductive result (A : Type) :=
  | Ok (a : A)
  | Raise (e : exn).
Arguments Ok {A} a.
Arguments Raise {A} e.

#[global] Instance result_ret : MRet result := λ A a, Ok a.
#[global] Instance result_bind : MBind result := λ A B f r,
  match r with
  | Ok a => f a
  | Raise e => Raise e
  end.

(** ** numpy primitives *)

Module np.

Definition arange (n : nat) : list nat := seq 0 n.

(** [np.linspace(start, stop, num)] with the default [endpoint=True]:
    the samples are [i * step + start], and the last one is
    overwritten with [stop]. *)
Definition linspace (start stop : Q) (num : nat) : list Q :=
  let div := (num - 1)%nat in
  let delta := stop - start in
  let y := (λ i, inject_Z (Z.of_nat i)) <$> arange num in
  let y :=
    if (0 <? div)%nat then
      let step := delta / inject_Z (Z.of_nat div) in
      if Qeq_bool step 0
      then (λ v, v / inject_Z (Z.of_nat div) * delta) <$> y
      else (λ v, v * step) <$> y
    else (λ v, v * delta) <$> y in
  let y := (λ v, v + start) <$> y in
  if (1 <? num)%nat then <[(num - 1)%nat := stop]> y else y.

(** [np.zeros((n, m))] and [np.zeros((n, m, k))]. *)
Definition zeros2 {A} (zero : A) (n m : nat) : list (list A) :=
  replicate n (replicate m zero).
Definition zeros3 {A} (zero : A) (n m k : nat) : list (list (list A)) :=
  replicate n (zeros2 zero m k).

(** [a[i]], guarded. *)
Definition get {A} (a : list A) (i : nat) : result A :=
  match a !! i with
  | Some x => Ok x
  | None => Raise IndexError
  end.

(** [a[i, j]]. *)
Definition get2 {A} (a : list (list A)) (i j : nat) : result A :=
  row ← get a i; get row j.

(** [m[r, c] = v] on a two-dimensional array. *)
Definition set2 {A} (m : list (list A)) (r c : nat) (v : A)
  : result (list (list A)) :=
  row ← get m r;
  if decide (c < length row)%nat
  then Ok (<[r := <[c := v]> row]> m)
  else Raise IndexError.

(** [a[:, r, c] = vals], one value per leading index. *)
Fixpoint set_entries {A} (a : list (list (list A))) (r c : nat)
    (vals : list A) : result (list (list (list A))) :=
  match a, vals with
  | [], [] => Ok []
  | m :: a', v :: vals' =>
      m' ← set2 m r c v;
      a'' ← set_entries a' r c vals';
      Ok (m' :: a'')
  | _, _ => Raise ValueError
  end.

(** numpy accepts [a[:, r, c] = vals] when [vals] has one entry per
    layer, or a single entry, which it broadcasts. *)
Definition assign_entries {A} (a : list (list (list A))) (r c : nat)
    (vals : list A) : result (list (list (list A))) :=
  match vals with
  | [v] => set_entries a r c (replicate (length a) v)
  | _ => set_entries a r c vals
  end.

(** [a[i, :] = vals]: the row index must be in range and [vals] must
    have the row's length (or a single entry, broadcast). *)
Definition assign_row {A} (a : list (list A)) (i : nat) (vals : list A)
  : result (list (list A)) :=
  row ← get a i;
  match vals with
  | [v] => Ok (<[i := replicate (length row) v]> a)
  | _ => if decide (length vals = length row)
         then Ok (<[i := vals]> a)
         else Raise ValueError
  end.

(** [a[i, k:] = v] with a scalar [v]. *)
Definition fill_row_from {A} (a : list (list A)) (i k : nat) (v : A)
  : result (list (list A)) :=
  row ← get a i;
  Ok (<[i := take k row ++ replicate (length row - k) v]> a).

(** The transpose [m.T] of a two-dimensional array with [k] columns. *)
Definition transpose {A} (k : nat) (m : list (list A)) : list (list A) :=
  (λ j, omap (λ row : list A, row !! j) m) <$> arange k.

End np.

(** ** Cell 1: the structure-tensor profile *)

Definition H : Q := 2000.           (* Ice column thickness *)
Definition N_layers : nat := 100.   (* Number of layers *)

(** Interface positions. *)
Definition z : list Q := np.linspace 0 (- H) N_layers.

(** Principal eigenvalue with depth. *)
Definition lambdavec : list Q := np.linspace ((3 # 2) / 3) (9 # 10) N_layers.

Definition Mat3 := list (list Q).

(** The structure tensor: zeros, then the three vectorised assignments
    to the diagonal. *)
Definition c2_profile : result (list Mat3) :=
  let c2 := np.zeros3 (0 : Q) N_layers 3 3 in
  c2 ← np.assign_entries c2 0 0 ((λ l, 3 / 10 * (1 - l)) <$> lambdavec);
  c2 ← np.assign_entries c2 1 1 ((λ l, 7 / 10 * (1 - l)) <$> lambdavec);
  np.assign_entries c2 2 2 lambdavec.

(** ** Running the script: external calls and their log *)

Inductive call :=
  | call_c2_to_nlm
  | call_plot_ODF
  | call_LayerStack
  | call_get_returns
  | call_get_eigenbasis
  | call_plot_returns
  | call_show.

(** One entry per external call performed: which function, and the
    exception it raised, if any. *)
Definition event : Type := call * option exn.

Record M (A : Type) := mkM { trace : list event; outcome : result A }.
Arguments mkM {A} trace outcome.
Arguments trace {A} m.
Arguments outcome {A} m.

#[global] Instance M_ret : MRet M := λ A a, mkM [] (Ok a).
#[global] Instance M_bind : MBind M := λ A B f m,
  match outcome m with
  | Ok a => let m' := f a in mkM (trace m ++ trace m') (outcome m')
  | Raise e => mkM (trace m) (Raise e)
  end.

(** A step of the script itself (indexing, numpy). *)
Definition step {A} (r : result A) : M A := mkM [] r.

(** A call into one of the libraries. *)
Definition extern {A} (c : call) (r : result A) : M A :=
  match r with
  | Ok a => mkM [(c, None)] (Ok a)
  | Raise e => mkM [(c, Some e)] (Raise e)
  end.

(** Reading a variable that may not have been bound yet. *)
Definition name {A} (v : option A) : M A :=
  match v with
  | Some a => mret a
  | None => step (Raise NameError)
  end.

(** [for i in l: s = body(i, s)]. *)
Fixpoint for_each {I S} (body : I → S → M S) (l : list I) (s : S) : M S :=
  match l with
  | [] => mret s
  | i :: l' => s' ← body i s; for_each body l' s'
  end.

(** ** The libraries the notebook imports

    [layerstack] provides [c2_to_nlm] and the [LayerStack] class,
    [plottools] provides [plot_ODF] and [plot_returns].  Their values
    are opaque to the notebook. *)

Section Interface.

Context {LM Stack Returns Eigvals Frame A2 Plt : Type}.

Record Externals := {
  (* nlm, lm = c2_to_nlm(c2): the six coefficients n_0^0, n_2^m *)
  c2_to_nlm : Mat3 → result (vec complex 6 * LM);
  (* plot_ODF(nlm, lm, tickintvl=.., cblabel=..%(depth)) *)
  plot_ODF : list complex → LM → Z → Z → result unit;
  (* LayerStack(nlm, z, N_frames=.., epsa=.., epsc=.., sigma=..) *)
  LayerStack :
    list (list complex) → list Q → nat → list Q → list Q → list Q →
    result Stack;
  (* lstack.z *)
  stack_z : Stack → list Q;
  (* lstack.get_returns(E0, f=.., alpha=..) *)
  get_returns : Stack → Q → Q → Q → result Returns;
  (* lstack.get_eigenbasis() *)
  get_eigenbasis : Stack → result (Eigvals * Frame * Frame * Frame * A2);
  (* plot_returns(z, returns, a2, eigvals), of which the first
     component is kept *)
  plot_returns : list Q → Returns → A2 → Eigvals → result Plt;
  (* plt.show() *)
  show : Plt → result unit
}.

Variable ext : Externals.

(** The body of the conversion loop:
    [nlm[ii,:], lm = c2_to_nlm(c2[ii,:,:])]. *)
Definition convert_layer (c2 : list Mat3) (ii : nat)
    (s : list (list complex) * option LM)
  : M (list (list complex) * option LM) :=
  m ← step (np.get c2 ii);
  '(row, lm) ← extern call_c2_to_nlm (c2_to_nlm ext m);
  nlm ← step (np.assign_row s.1 ii (vec_to_list row));
  mret (nlm, Some lm).

(** [for ii in np.arange(N_layers): ...], from the zero array. *)
Definition conversion_loop (c2 : list Mat3)
  : M (list (list complex) * option LM) :=
  for_each (convert_layer c2) (np.arange N_layers)
    (np.zeros2 czero N_layers 6, None).

(** [nlm[0, 1:] = 0]. *)
Definition force_isotropic (nlm : list (list complex))
  : result (list (list complex)) :=
  np.fill_row_from nlm 0 1 czero.

(** One iteration of the plotting loop: [plot_ODF(nlm[I,:], lm, ...)],
    labelled with the integer [%i] prints for [z[I]*1e-3]. *)
Definition plot_layer (nlm : list (list complex)) (lm : option LM) (I : Z)
    (_ : unit) : M unit :=
  row ← step (match py_index (length nlm) I with
              | Some i => np.get nlm i
              | None => Raise IndexError
              end);
  lm ← name lm;
  zI ← step (match py_index (length z) I with
             | Some i => np.get z i
             | None => Raise IndexError
             end);
  extern call_plot_ODF (plot_ODF ext row lm 2 (py_int (zI * (1 # 1000)))).

(** The variables of the notebook after the first cell. *)
Record arrays := {
  a_z : list Q;
  a_c2 : list Mat3;
  a_lambdavec : list Q;
  a_nlm : list (list complex);
  a_lm : option LM
}.

Definition cell1 : M arrays :=
  c2 ← step c2_profile;
  '(nlm, lm) ← conversion_loop c2;
  nlm ← step (force_isotropic nlm);
  for_each (plot_layer nlm lm)
    [1; py_int (inject_Z (Z.of_nat N_layers) / 2); -1]%Z tt;;
  mret {| a_z := z; a_c2 := c2; a_lambdavec := lambdavec;
          a_nlm := nlm; a_lm := lm |}.

(** ** Cell 2: the radar returns *)

Definition N_frames : nat := 50.
Definition epsa : Q := 317 # 100.
Definition epsc : Q := epsa - (34 # 1000).
Definition sigma : Q := 1 # 100000.
Definition E0 : Q := 1000.
Definition f : Q := 179000000.
Definition alpha : Q := 0.          (* np.deg2rad(0) *)

Definition cell2 (a : arrays) : M unit :=
  lstack ← extern call_LayerStack
    (LayerStack ext (a_nlm a) (a_z a) N_frames [epsa] [epsc] [sigma]);
  returns ← extern call_get_returns (get_returns ext lstack E0 f alpha);
  '(eigvals, e1, e2, e3, a2) ←
    extern call_get_eigenbasis (get_eigenbasis ext lstack);
  plt ← extern call_plot_returns
    (plot_returns ext (stack_z ext lstack) returns a2 eigvals);
  extern call_show (show ext plt).

(** The two cells, run in order. *)
Definition notebook : M arrays :=
  a ← cell1; cell2 a;; mret a.

End Interface.

Arguments Externals : clear implicits.
Arguments arrays : clear implicits.

(** The structure tensor the first cell builds. *)
Definition c2 : list Mat3 :=
  match c2_profile with
  | Ok a => a
  | Raise _ => []
  end.

(** The matrix with diagonal [a], [b], [c]. *)
Definition diag3 (a b c : Q) : Mat3 := [[a; 0; 0]; [0; b; 0]; [0; 0; c]].

(** The structure tensor of a layer with principal eigenvalue [l]. *)
Definition layer_tensor (l : Q) : Mat3 :=
  diag3 (3 / 10 * (1 - l)) (7 / 10 * (1 - l)) l.

(** The shape of a two-dimensional array. *)
Definition has_shape {A} (n m : nat) (a : list (list A)) : Prop :=
  length a = n ∧ Forall (λ row, length row = m) a.

(** ** Properties of a run *)

(** No logged call raised. *)
Definition quiet (t : list event) : Prop := Forall (λ ev, ev.2 = None) t.

(** The exception [e] came out of the last library call performed. *)
Definition raised_by_library {A} (m : M A) (e : exn) : Prop :=
  ∃ t c, trace m = t ++ [(c, Some e)] ∧ quiet t.

(** A run is [sound] when it either completes with a result satisfying
    [Post] and no call raised, or ends with the exception of the last
    library call. *)
Definition sound {A} (Post : A → Prop) (m : M A) : Prop :=
  match outcome m with
  | Ok a => quiet (trace m) ∧ Post a
  | Raise e => raised_by_library m e
  end.

(** Row [ii] of [nlm] holds the coefficients [c2_to_nlm] returns for
    layer [ii]. *)
Definition converted {LM Stack Returns Eigvals Frame A2 Plt}
    (ext : Externals LM Stack Returns Eigvals Frame A2 Plt)
    (nlm : list (list complex)) (ii : nat) : Prop :=
  ∃ m r lm, c2 !! ii = Some m ∧ c2_to_nlm ext m = Ok (r, lm) ∧
            nlm !! ii = Some (vec_to_list r).

(** Row 0 of [nlm] holds the isotropic coefficient [c2_to_nlm] returns
    for the top layer, followed by zeros. *)
Definition top_isotropic {LM Stack Returns Eigvals Frame A2 Plt}
    (ext : Externals LM Stack Returns Eigvals Frame A2 Plt)
    (nlm : list (list complex)) : Prop :=
  ∃ m r lm, c2 !! 0%nat = Some m ∧ c2_to_nlm ext m = Ok (r, lm) ∧
            nlm !! 0%nat = Some (r !!! 0%fin :: replicate 5 czero).

(** The state of the conversion loop after [k] iterations: the array
    keeps its shape, [lm] is bound once an iteration has run, and the
    first [k] rows are converted. *)
Definition loop_inv {LM Stack Returns Eigvals Frame A2 Plt}
    (ext : Externals LM Stack Returns Eigvals Frame A2 Plt)
    (k : nat) (s : list (list complex) * option LM) : Prop :=
  has_shape N_layers 6 s.1 ∧ ((0 < k)%nat → is_Some s.2) ∧
  ∀ ii, (ii < k)%nat → converted ext s.1 ii.

(** What the first cell leaves behind when it completes. *)
Definition cell1_post {LM Stack Returns Eigvals Frame A2 Plt}
    (ext : Externals LM Stack Returns Eigvals Frame A2 Plt)
    (a : arrays LM) : Prop :=
  a_z a = z ∧ a_c2 a = c2 ∧ a_lambdavec a = lambdavec ∧
  has_shape N_layers 6 (a_nlm a) ∧
  top_isotropic ext (a_nlm a) ∧
  ∀ ii, (1 ≤ ii < N_layers)%nat → converted ext (a_nlm a) ii.

(** ** Sample library functions

    Stand-ins for the libraries, used to run the script on concrete
    values.  [sample_c2_to_nlm] follows the shape of the real
    conversion up to its normalisation constants: the isotropic
    coefficient is constant, the others vanish exactly on the isotropic
    tensor [I/3]. *)

Definition entry (m : Mat3) (r c : nat) : Q :=
  default 0 (row ← m !! r; row !! c).

Definition sample_c2_to_nlm (m : Mat3) : result (vec complex 6 * unit) :=
  Ok ([# of_real 1;
         Cplx (entry m 0 0 - entry m 1 1) (-(2) * entry m 0 1);
         Cplx (entry m 0 2) (- entry m 1 2);
         of_real (3 * entry m 2 2 - 1);
         Cplx (- entry m 0 2) (- entry m 1 2);
         Cplx (entry m 0 0 - entry m 1 1) (2 * entry m 0 1)], tt).

Definition sample_externals : Externals unit unit unit unit unit unit unit := {|
  c2_to_nlm := sample_c2_to_nlm;
  plot_ODF := λ _ _ _ _, Ok tt;
  LayerStack := λ _ _ _ _ _ _, Ok tt;
  stack_z := λ _, z;
  get_returns := λ _ _ _ _, Ok tt;
  get_eigenbasis := λ _, Ok (tt, tt, tt, tt, tt);
  plot_returns := λ _ _ _ _, Ok tt;
  show := λ _, Ok tt
|}.

(** A library whose layer-stack constructor rejects its input. *)
Definition failing_externals : Externals unit unit unit unit unit unit unit := {|
  c2_to_nlm := sample_c2_to_nlm;
  plot_ODF := λ _ _ _ _, Ok tt;
  LayerStack := λ _ _ _ _ _ _, Raise (OtherError "LayerStack: unsupported profile");
  stack_z := λ _, z;
  get_returns := λ _ _ _ _, Ok tt;
  get_eigenbasis := λ _, Ok (tt, tt, tt, tt, tt);
  plot_returns := λ _ _ _ _, Ok tt;
  show := λ _, Ok tt
|}.

(** A library whose conversion rejects strongly anisotropic layers. *)
Definition strict_c2_to_nlm (m : Mat3) : result (vec complex 6 * unit) :=
  if Qle_bool (entry m 2 2) (4 # 5) then sample_c2_to_nlm m
  else Raise ValueError.

Definition strict_externals : Externals unit unit unit unit unit unit unit := {|
  c2_to_nlm := strict_c2_to_nlm;
  plot_ODF := λ _ _ _ _, Ok tt;
  LayerStack := λ _ _ _ _ _ _, Ok tt;
  stack_z := λ _, z;
  get_returns := λ _ _ _ _, Ok tt;
  get_eigenbasis := λ _, Ok (tt, tt, tt, tt, tt);
  plot_returns := λ _ _ _ _, Ok tt;
  show := λ _, Ok tt
|}.

(** What the conversion loop leaves in [nlm] under the sample library. *)
Definition sample_loop_nlm : list (list complex) :=
  match outcome (conversion_loop sample_externals c2) with
  | Ok (nlm, _) => nlm
  | Raise _ => []
  end.

(** The final state of the notebook under the sample library. *)
Definition sample_final : arrays unit :=
  match outcome (notebook sample_externals) with
  | Ok a => a
  | Raise _ => {| a_z := []; a_c2 := []; a_lambdavec := [];
                  a_nlm := []; a_lm := None |}
  end.

(** Every row of the final [nlm] holds what [c2_to_nlm] returned for
    its layer. *)
Definition all_rows_converted {LM Stack Returns Eigvals Frame A2 Plt}
    (ext : Externals LM Stack Returns Eigvals Frame A2 Plt) : Prop :=
  ∀ a, outcome (notebook ext) = Ok a →
    ∀ ii, (ii < N_layers)%nat → converted ext (a_nlm a) ii.

(** ** The order of the library calls *)

(** The calls of a run that completes, in order: one conversion per
    layer, three ODF plots, then the layer stack and its results. *)
Definition script_calls : list call :=
  replicate N_layers call_c2_to_nlm ++ replicate 3 call_plot_ODF ++
  [call_LayerStack; call_get_returns; call_get_eigenbasis;
   call_plot_returns; call_show].

(** The functions called by a run, in order. *)
Definition calls {A} (m : M A) : list call := (λ ev : event, ev.1) <$> trace m.

(** A run [follows] the call sequence [cs] when the calls it performs
    are an initial part of [cs], and all of [cs] when it completes. *)
Definition follows {A} (cs : list call) (m : M A) : Prop :=
  calls m `prefix_of` cs ∧ ∀ a, outcome m = Ok a → calls m = cs.

(** The state after one iteration of the conversion loop, for layer 3,
    under the sample library. *)
Definition sample_iteration : list (list complex) * option unit :=
  match outcome (convert_layer sample_externals c2 3
                   (np.zeros2 czero N_layers 6, None)) with
  | Ok s => s
  | Raise _ => ([], None)
  end.

(** ** The libraries without assumptions on what they return

    Python does not type what a call returns.  Here a call whose result
    the notebook unpacks returns a tuple of any length, a component of
    it is an array of any length or some other object, and an attribute
    the notebook reads from a returned object may be missing. *)

(** Reading an attribute of an object. *)
Definition attr {A} (v : option A) : result A :=
  match v with
  | Some a => Ok a
  | None => Raise (OtherError "AttributeError")
  end.

(** [a, b = vs]. *)
Definition unpack2 {A} (vs : list A) : result (A * A) :=
  match vs with
  | [a; b] => Ok (a, b)
  | _ => Raise ValueError
  end.

(** [(a, b, c, d, e) = vs]. *)
Definition unpack5 {A} (vs : list A) : result (A * A * A * A * A) :=
  match vs with
  | [a; b; c; d; e] => Ok (a, b, c, d, e)
  | _ => Raise ValueError
  end.

(** [(a, *_) = vs]. *)
Definition unpack_first {A} (vs : list A) : result A :=
  match vs with
  | a :: _ => Ok a
  | [] => Raise ValueError
  end.

Section RawInterface.

Context {Obj Stack Returns Zs Plt : Type}.

(** A component of a returned tuple. *)
Inductive item :=
  | ItemArray (a : list complex)
  | ItemOther (o : Obj).

Record RawExternals := {
  raw_c2_to_nlm : Mat3 → result (list item);
  raw_plot_ODF : list complex → item → Z → Z → result unit;
  raw_LayerStack :
    list (list complex) → list Q → nat → list Q → list Q → list Q →
    result Stack;
  (* the attribute lstack.z, and the methods of lstack *)
  raw_z : Stack → option Zs;
  raw_get_returns : Stack → option (Q → Q → Q → result Returns);
  raw_get_eigenbasis : Stack → option (result (list Obj));
  raw_plot_returns : Zs → Returns → Obj → Obj → result (list Plt);
  (* the method plt.show *)
  raw_show : Plt → option (result unit)
}.

Variable lib : RawExternals.

(** [nlm[ii, :] = v], for a component [v] of a returned tuple. *)
Definition assign_item (nlm : list (list complex)) (ii : nat) (v : item)
  : result (list (list complex)) :=
  match v with
  | ItemArray a => np.assign_row nlm ii a
  | ItemOther _ => _ ← np.get nlm ii; Raise (OtherError "TypeError")
  end.

(** [nlm[ii,:], lm = c2_to_nlm(c2[ii,:,:])]. *)
Definition raw_convert_layer (c2 : list Mat3) (ii : nat)
    (s : list (list complex) * option item)
  : M (list (list complex) * option item) :=
  m ← step (np.get c2 ii);
  vs ← extern call_c2_to_nlm (raw_c2_to_nlm lib m);
  '(first, lm) ← step (unpack2 vs);
  nlm ← step (assign_item s.1 ii first);
  mret (nlm, Some lm).

Definition raw_conversion_loop (c2 : list Mat3)
  : M (list (list complex) * option item) :=
  for_each (raw_convert_layer c2) (np.arange N_layers)
    (np.zeros2 czero N_layers 6, None).

Definition raw_plot_layer (nlm : list (list complex)) (lm : option item)
    (I : Z) (_ : unit) : M unit :=
  row ← step (match py_index (length nlm) I with
              | Some i => np.get nlm i
              | None => Raise IndexError
              end);
  lm ← name lm;
  zI ← step (match py_index (length z) I with
             | Some i => np.get z i
             | None => Raise IndexError
             end);
  extern call_plot_ODF (raw_plot_ODF lib row lm 2 (py_int (zI * (1 # 1000)))).

Definition raw_cell1 : M (arrays item) :=
  c2 ← step c2_profile;
  '(nlm, lm) ← raw_conversion_loop c2;
  nlm ← step (force_isotropic nlm);
  for_each (raw_plot_layer nlm lm)
    [1; py_int (inject_Z (Z.of_nat N_layers) / 2); -1]%Z tt;;
  mret {| a_z := z; a_c2 := c2; a_lambdavec := lambdavec;
          a_nlm := nlm; a_lm := lm |}.

Definition raw_cell2 (a : arrays item) : M unit :=
  lstack ← extern call_LayerStack
    (raw_LayerStack lib (a_nlm a) (a_z a) N_frames [epsa] [epsc] [sigma]);
  get_returns ← step (attr (raw_get_returns lib lstack));
  returns ← extern call_get_returns (get_returns E0 f alpha);
  get_eigenbasis ← step (attr (raw_get_eigenbasis lib lstack));
  vs ← extern call_get_eigenbasis get_eigenbasis;
  '(eigvals, e1, e2, e3, a2) ← step (unpack5 vs);
  zs ← step (attr (raw_z lib lstack));
  ps ← extern call_plot_returns (raw_plot_returns lib zs returns a2 eigvals);
  plt ← step (unpack_first ps);
  show ← step (attr (raw_show lib plt));
  extern call_show show.

Definition raw_notebook : M (arrays item) :=
  a ← raw_cell1; raw_cell2 a;; mret a.

(** What line 50 needs of the tuple [c2_to_nlm] returns: two
    components, the first an array that numpy can broadcast into a row
    of six. *)
Definition fits_row (vs : list item) : Prop :=
  ∃ a lm, vs = [ItemArray a; lm] ∧ (length a = 6%nat ∨ length a = 1%nat).

(** Every value a call returns has the form the statement receiving it
    needs. *)
Definition well_shaped : Prop :=
  (∀ ii m vs, c2 !! ii = Some m → raw_c2_to_nlm lib m = Ok vs →
     fits_row vs) ∧
  (∀ n zs k a c s st, raw_LayerStack lib n zs k a c s = Ok st →
     is_Some (raw_z lib st) ∧ is_Some (raw_get_returns lib st) ∧
     ∃ ge, raw_get_eigenbasis lib st = Some ge ∧
           ∀ vs, ge = Ok vs → length vs = 5%nat) ∧
  (∀ zs r a v ps, raw_plot_returns lib zs r a v = Ok ps →
     ∃ p rest, ps = p :: rest ∧ is_Some (raw_show lib p)).

(** No function or method of the library ever raises. *)
Definition never_raises : Prop :=
  (∀ m, ∃ vs, raw_c2_to_nlm lib m = Ok vs) ∧
  (∀ r lm t d, raw_plot_ODF lib r lm t d = Ok ()) ∧
  (∀ n zs k a c s, ∃ st, raw_LayerStack lib n zs k a c s = Ok st) ∧
  (∀ st g a b c, raw_get_returns lib st = Some g → ∃ r, g a b c = Ok r) ∧
  (∀ st ge, raw_get_eigenbasis lib st = Some ge → ∃ vs, ge = Ok vs) ∧
  (∀ zs r a v, ∃ ps, raw_plot_returns lib zs r a v = Ok ps) ∧
  (∀ p sh, raw_show lib p = Some sh → sh = Ok ()).

End RawInterface.

Arguments item : clear implicits.
Arguments RawExternals : clear implicits.

(** The notebook raises exactly when one of the calls it performed
    raised. *)
Definition raises_iff_call_raises {A} (m : M A) : Prop :=
  (∃ e, outcome m = Raise e) ↔ (∃ c e, (c, Some e) ∈ trace m).

(** The exceptions Python and numpy raise on a returned value that does
    not have the form the statement receiving it needs: a wrong number
    of components or a shape that cannot be broadcast (ValueError), a
    component that is no array (TypeError), a missing attribute
    (AttributeError). *)
Definition misfit (e : exn) : Prop :=
  e = ValueError ∨ e = OtherError "TypeError" ∨
  e = OtherError "AttributeError".

(** A run is [tame] when it completes with a result satisfying [Post]
    and no call raised, or ends with the exception of its last call, or
    ends, no call having raised, with the exception of a misfit. *)
Definition tame {A} (Post : A → Prop) (m : M A) : Prop :=
  match outcome m with
  | Ok a => quiet (trace m) ∧ Post a
  | Raise e => raised_by_library m e ∨ (quiet (trace m) ∧ misfit e)
  end.

(** The sample library, with its values as Python hands them over. *)
Definition raw_sample : RawExternals unit unit unit unit unit := {|
  raw_c2_to_nlm := λ m,
    '(r, lm) ← sample_c2_to_nlm m; Ok [ItemArray (vec_to_list r); ItemOther lm];
  raw_plot_ODF := λ _ _ _ _, Ok ();
  raw_LayerStack := λ _ _ _ _ _ _, Ok ();
  raw_z := λ _, Some ();
  raw_get_returns := λ _, Some (λ _ _ _, Ok ());
  raw_get_eigenbasis := λ _, Some (Ok [(); (); (); (); ()]);
  raw_plot_returns := λ _ _ _ _, Ok [()];
  raw_show := λ _, Some (Ok ())
|}.

(** A library that never raises, but whose conversion returns five
    coefficients instead of six. *)
Definition short_library : RawExternals unit unit unit unit unit := {|
  raw_c2_to_nlm := λ _, Ok [ItemArray (replicate 5 czero); ItemOther ()];
  raw_plot_ODF := λ _ _ _ _, Ok ();
  raw_LayerStack := λ _ _ _ _ _ _, Ok ();
  raw_z := λ _, Some ();
  raw_get_returns := λ _, Some (λ _ _ _, Ok ());
  raw_get_eigenbasis := λ _, Some (Ok [(); (); (); (); ()]);
  raw_plot_returns := λ _ _ _ _, Ok [()];
  raw_show := λ _, Some (Ok ())
|}.

(** The sample library with a layer-stack constructor that raises. *)
Definition raw_failing : RawExternals unit unit unit unit unit := {|
  raw_c2_to_nlm := raw_c2_to_nlm raw_sample;
  raw_plot_ODF := λ _ _ _ _, Ok ();
  raw_LayerStack := λ _ _ _ _ _ _,
    Raise (OtherError "LayerStack: unsupported profile");
  raw_z := λ _, Some ();
  raw_get_returns := λ _, Some (λ _ _ _, Ok ());
  raw_get_eigenbasis := λ _, Some (Ok [(); (); (); (); ()]);
  raw_plot_returns := λ _ _ _ _, Ok [()];
  raw_show := λ _, Some (Ok ())
|}.

(** * Proofs *)

(** ** Sampling an interval *)

Section linspace.
Variables (start stop : Q) (num : nat).

Lemma length_linspace : length (np.linspace start stop num) = num.
Proof.
  unfold np.linspace, np.arange.
  repeat (case_match; rewrite ?length_insert, ?length_fmap, ?length_seq); done.
Qed.

Lemma lookup_linspace_last :
  (1 < num)%nat → np.linspace start stop num !! (num - 1)%nat = Some stop.
Proof.
  intros Hn. unfold np.linspace.
  destruct (Nat.ltb_spec 1 num) as [_|?]; [|lia].
  apply list_lookup_insert_eq.
  unfold np.arange. repeat case_match; rewrite !length_fmap, length_seq; lia.
Qed.

Lemma lookup_linspace (i : nat) :
  (i < num - 1)%nat →
  ∃ v, np.linspace start stop num !! i = Some v ∧
       v == inject_Z (Z.of_nat i)
            * ((stop - start) / inject_Z (Z.of_nat (num - 1)))
            + start.
Proof.
  intros Hi. unfold np.linspace, np.arange.
  destruct (Nat.ltb_spec 1 num) as [_|?]; [|lia].
  destruct (Nat.ltb_spec 0 (num - 1)) as [_|?]; [|lia].
  rewrite list_lookup_insert_ne by lia.
  destruct (Qeq_bool _ 0) eqn:Hstep;
    rewrite !list_lookup_fmap, lookup_seq_lt by lia; simpl;
    eexists; (split; [reflexivity|]).
  - apply Qeq_bool_eq in Hstep.
    assert (Hd : ¬ inject_Z (Z.of_nat (num - 1)) == 0).
    { unfold Qeq; simpl. lia. }
    rewrite Hstep.
    assert (stop - start == 0) as ->; [|field; exact Hd].
    rewrite <- (Qmult_div_r (stop - start) _ Hd), Hstep. ring.
  - reflexivity.
Qed.
End linspace.

Lemma inject_nat_succ (i : nat) :
  inject_Z (Z.of_nat (i + 1)) == inject_Z (Z.of_nat i) + 1.
Proof. rewrite Nat2Z.inj_add, inject_Z_plus. reflexivity. Qed.

Lemma inject_nat_bounds (i n : nat) :
  (i < n)%nat →
  0 <= inject_Z (Z.of_nat i) ∧
  inject_Z (Z.of_nat i) + 1 <= inject_Z (Z.of_nat n).
Proof.
  intros Hi. split.
  - change 0 with (inject_Z 0). rewrite <- Zle_Qle. lia.
  - rewrite <- inject_nat_succ, <- Zle_Qle. lia.
Qed.

(** The sample at index [i] as a fraction of the way from [start] to [stop]. *)
Lemma linspace_sample start stop num i v :
  np.linspace start stop num !! i = Some v →
  (1 < num)%nat →
  ∃ x n, 0 <= x ∧ x <= n ∧ 0 < n ∧
         v * n == x * stop + (n - x) * start ∧
         n == inject_Z (Z.of_nat (num - 1)) ∧ x == inject_Z (Z.of_nat i).
Proof.
  intros Hv Hn.
  assert (Hi : (i < num)%nat).
  { apply lookup_lt_Some in Hv. by rewrite length_linspace in Hv. }
  exists (inject_Z (Z.of_nat i)), (inject_Z (Z.of_nat (num - 1))).
  assert (Hpos : 0 < inject_Z (Z.of_nat (num - 1))).
  { change 0 with (inject_Z 0). rewrite <- Zlt_Qlt. lia. }
  destruct (decide (i = num - 1)%nat) as [->|Hne].
  - rewrite lookup_linspace_last in Hv by done. injection Hv as <-.
    repeat split; try done; try lra.
  - destruct (lookup_linspace start stop num i) as (w & Hw & Heq); [lia|].
    rewrite Hw in Hv. injection Hv as <-.
    destruct (inject_nat_bounds i (num - 1)) as [? ?]; [lia|].
    repeat split; try done; try lra.
    rewrite Heq. field. lra.
Qed.

Lemma linspace_bounds start stop num v :
  start <= stop → v ∈ np.linspace start stop num → start <= v ∧ v <= stop.
Proof.
  intros Hle [i Hv]%list_elem_of_lookup.
  destruct (decide (1 < num)%nat) as [Hn|Hn].
  - destruct (linspace_sample _ _ _ _ _ Hv Hn) as (x & n & ? & ? & ? & Heq & _).
    assert (0 <= x * (stop - start)) by (apply Qmult_le_0_compat; lra).
    assert (0 <= (n - x) * (stop - start)) by (apply Qmult_le_0_compat; lra).
    split; apply (Qmult_le_r _ _ n); try done; rewrite Heq; lra.
  - unfold np.linspace, np.arange in Hv.
    destruct num as [|[|?]]; [done| |lia]. simpl in Hv.
    destruct i; [|done]. injection Hv as <-.
    change (inject_Z (Z.of_nat 0)) with 0. split; lra.
Qed.

Lemma linspace_decreasing start stop num i a b :
  stop < start →
  np.linspace start stop num !! i = Some a →
  np.linspace start stop num !! (i + 1)%nat = Some b →
  b < a.
Proof.
  intros Hlt Ha Hb.
  assert (Hn : (1 < num)%nat).
  { apply lookup_lt_Some in Hb. rewrite length_linspace in Hb. lia. }
  destruct (linspace_sample _ _ _ _ _ Ha Hn)
    as (x & n & ? & ? & ? & Heqa & Hn1 & Hx).
  destruct (linspace_sample _ _ _ _ _ Hb Hn)
    as (x' & n' & ? & ? & ? & Heqb & Hn2 & Hx').
  rewrite inject_nat_succ, <- Hx in Hx'. rewrite <- Hn1 in Hn2.
  rewrite Hn2 in *. rewrite Hx' in *.
  apply (Qmult_lt_r _ _ n); [done|]. rewrite Heqa, Heqb. lra.
Qed.

(** ** Vectorised assignment *)

Lemma set_entries_zip_with {A} (F : list (list A) → A → list (list A))
    (a : list (list (list A))) r c vals :
  length vals = length a →
  (∀ m v, m ∈ a → np.set2 m r c v = Ok (F m v)) →
  np.set_entries a r c vals = Ok (zip_with F a vals).
Proof.
  revert vals. induction a as [|m a IH]; intros [|v vals] Hlen HF; try done.
  simpl. rewrite HF by left. simpl.
  rewrite IH; [done|by injection Hlen|].
  intros m' v' Hm'. apply HF. by right.
Qed.

Lemma assign_entries_zip_with {A} (F : list (list A) → A → list (list A))
    (a : list (list (list A))) r c vals :
  length vals = length a →
  (∀ m v, m ∈ a → np.set2 m r c v = Ok (F m v)) →
  np.assign_entries a r c vals = Ok (zip_with F a vals).
Proof.
  intros Hlen HF. unfold np.assign_entries.
  destruct vals as [|v [|w vals]]; try by apply set_entries_zip_with.
  rewrite <- Hlen. by apply set_entries_zip_with.
Qed.

Lemma c2_profile_ok : c2_profile = Ok (layer_tensor <$> lambdavec).
Proof.
  unfold c2_profile, np.zeros3.
  rewrite <- (length_linspace ((3 # 2) / 3) (9 # 10) N_layers) at 1.
  fold lambdavec. generalize lambdavec as ls. intros ls.
  rewrite (assign_entries_zip_with (λ m v, <[0%nat := <[0%nat := v]> [0; 0; 0]]> m)).
  2: by rewrite length_fmap, length_replicate.
  2: { intros m v ->%elem_of_replicate_inv. done. }
  rewrite zip_with_replicate_l by (by rewrite length_fmap).
  rewrite <- list_fmap_compose. simpl.
  rewrite (assign_entries_zip_with (λ m v, <[1%nat := <[1%nat := v]> [0; 0; 0]]> m)).
  2: by rewrite !length_fmap.
  2: { intros m v (l & -> & _)%list_elem_of_fmap. done. }
  rewrite zip_with_fmap_l, zip_with_fmap_r, zip_with_diag. simpl.
  rewrite (assign_entries_zip_with (λ m v, <[2%nat := <[2%nat := v]> [0; 0; 0]]> m)).
  2: by rewrite !length_fmap.
  2: { intros m v (l & -> & _)%list_elem_of_fmap. done. }
  rewrite zip_with_fmap_l, zip_with_diag. done.
Qed.

(** ** Reasoning about runs *)

Section sound.
Context {A B : Type}.

Lemma sound_ret (P : A → Prop) a : P a → sound P (mret a).
Proof. intros HP. split; [constructor|done]. Qed.

Lemma sound_step (P : A → Prop) r a : r = Ok a → P a → sound P (step r).
Proof. intros -> HP. split; [constructor|done]. Qed.

Lemma sound_extern (P : A → Prop) c r :
  (∀ a, r = Ok a → P a) → sound P (extern c r).
Proof.
  intros HP. destruct r as [a|e]; unfold sound, extern; simpl.
  - split; [|by apply HP]. by repeat constructor.
  - exists [], c. split; [done|constructor].
Qed.

Lemma sound_bind (P : A → Prop) (Q : B → Prop) (m : M A) (k : A → M B) :
  sound P m → (∀ a, P a → sound Q (k a)) → sound Q (m ≫= k).
Proof.
  destruct m as [t [a|e]]; unfold sound at 1; simpl.
  - intros [Ht HP] Hk. specialize (Hk a HP).
    unfold sound, mbind, M_bind in *; simpl.
    destruct (outcome (k a)) as [b|e].
    + destruct Hk as [Hq HQ]. split; [by apply Forall_app|done].
    + destruct Hk as (t' & c & Heq & Hq). exists (t ++ t'), c.
      unfold raised_by_library; simpl. rewrite Heq, (assoc_L (++)).
      split; [done|by apply Forall_app].
  - intros Hr _. exact Hr.
Qed.

Lemma sound_mono (P Q : A → Prop) (m : M A) :
  (∀ a, P a → Q a) → sound P m → sound Q m.
Proof.
  intros HPQ. unfold sound. destruct (outcome m); [|done].
  intros [? ?]. auto.
Qed.

End sound.

(** The loop rule: an invariant indexed by the number of iterations
    performed. *)
Lemma sound_for_each_seq {St} (Inv : nat → St → Prop) (body : nat → St → M St)
    (start n : nat) (s : St) :
  Inv start s →
  (∀ i s, (start ≤ i < start + n)%nat → Inv i s →
          sound (Inv (i + 1)%nat) (body i s)) →
  sound (Inv (start + n)%nat) (for_each body (seq start n) s).
Proof.
  revert start s. induction n as [|n IH]; intros start s Hs Hbody; simpl.
  - apply sound_ret. by rewrite Nat.add_0_r.
  - eapply sound_bind; [apply Hbody; [lia|done]|].
    intros s' Hs'. replace (start + S n)%nat with (S start + n)%nat by lia.
    apply IH; [by rewrite Nat.add_1_r in Hs'|].
    intros i s'' Hi. apply Hbody. lia.
Qed.

Lemma sound_for_each {I St} (Inv : St → Prop) (body : I → St → M St)
    (l : list I) (s : St) :
  Inv s →
  (∀ i s, i ∈ l → Inv s → sound Inv (body i s)) →
  sound Inv (for_each body l s).
Proof.
  revert s. induction l as [|i l IH]; intros s Hs Hbody; simpl.
  - by apply sound_ret.
  - eapply sound_bind; [apply Hbody; [left|done]|].
    intros s' Hs'. apply IH; [done|]. intros j s'' Hj. apply Hbody. by right.
Qed.

(** What a sound run says about its outcome. *)
Lemma sound_ok {A} (P : A → Prop) (m : M A) a :
  sound P m → outcome m = Ok a → quiet (trace m) ∧ P a.
Proof. unfold sound. intros Hs Ho. by rewrite Ho in Hs. Qed.

Lemma sound_raise {A} (P : A → Prop) (m : M A) e :
  sound P m → outcome m = Raise e → raised_by_library m e.
Proof. unfold sound. intros Hs Ho. by rewrite Ho in Hs. Qed.

(** ** The first cell *)

Lemma c2_eq : c2 = layer_tensor <$> lambdavec.
Proof. unfold c2. by rewrite c2_profile_ok. Qed.

Lemma length_lambdavec : length lambdavec = N_layers.
Proof. apply length_linspace. Qed.

Lemma length_z : length z = N_layers.
Proof. apply length_linspace. Qed.

Lemma length_c2 : length c2 = N_layers.
Proof. by rewrite c2_eq, length_fmap, length_lambdavec. Qed.

Lemma lookup_c2 (ii : nat) :
  (ii < N_layers)%nat →
  ∃ l, lambdavec !! ii = Some l ∧ c2 !! ii = Some (layer_tensor l).
Proof.
  intros Hii. destruct (lookup_lt_is_Some_2 lambdavec ii) as [l Hl].
  { by rewrite length_lambdavec. }
  exists l. split; [done|]. by rewrite c2_eq, list_lookup_fmap, Hl.
Qed.

Lemma lambdavec_bounds (l : Q) : l ∈ lambdavec → 1 # 2 <= l ∧ l <= 9 # 10.
Proof.
  intros Hl. apply linspace_bounds in Hl; [|done].
  destruct Hl as [Hlo Hhi]. split; [|done].
  assert (Heq : (3 # 2) / 3 == 1 # 2) by reflexivity. by rewrite <- Heq.
Qed.

Lemma assign_row_ok {A} (a : list (list A)) i vals row :
  a !! i = Some row → length vals = length row →
  np.assign_row a i vals = Ok (<[i := vals]> a).
Proof.
  intros Hrow Hlen. unfold np.assign_row, np.get. rewrite Hrow. simpl.
  destruct vals as [|v [|w vals]]; try by rewrite decide_True.
  simpl in Hlen. by rewrite <- Hlen.
Qed.

Lemma has_shape_insert {A} n m (a : list (list A)) i row :
  has_shape n m a → length row = m → has_shape n m (<[i := row]> a).
Proof.
  intros [Hn Hrows] Hrow. split; [by rewrite length_insert|].
  destruct (decide (i < length a)%nat).
  - by apply Forall_insert.
  - rewrite list_insert_ge; [done|lia].
Qed.

Lemma has_shape_lookup {A} n m (a : list (list A)) i :
  has_shape n m a → (i < n)%nat → ∃ row, a !! i = Some row ∧ length row = m.
Proof.
  intros [Hn Hrows] Hi. destruct (lookup_lt_is_Some_2 a i) as [row Hrow]; [lia|].
  exists row. split; [done|]. exact (Forall_lookup_1 _ _ _ _ Hrows Hrow).
Qed.

Lemma has_shape_zeros2 {A} (zero : A) n m : has_shape n m (np.zeros2 zero n m).
Proof.
  split; [apply length_replicate|].
  apply Forall_replicate, length_replicate.
Qed.

Section cell1.
Context {LM Stack Returns Eigvals Frame A2 Plt : Type}.
Variable ext : Externals LM Stack Returns Eigvals Frame A2 Plt.

Lemma convert_layer_sound (i : nat) s :
  (i < N_layers)%nat → loop_inv ext i s →
  sound (loop_inv ext (i + 1)) (convert_layer ext c2 i s).
Proof.
  intros Hi (Hshape & Hlm & Hconv). unfold convert_layer.
  destruct (lookup_c2 i Hi) as (l & _ & Hm).
  eapply sound_bind.
  { eapply (sound_step (λ m, m = layer_tensor l)); [|done].
    unfold np.get. by rewrite Hm. }
  intros ? ->. eapply sound_bind.
  { apply (sound_extern (λ p, c2_to_nlm ext (layer_tensor l) = Ok p)). done. }
  intros [row lm] Hcall.
  destruct (has_shape_lookup _ _ _ i Hshape Hi) as (old & Hold & Hlen).
  eapply sound_bind.
  { eapply (sound_step (λ a, a = <[i := vec_to_list row]> s.1)); [|done].
    eapply assign_row_ok; [done|]. by rewrite length_vec_to_list. }
  intros ? ->. apply sound_ret. split_and!; simpl.
  - apply has_shape_insert; [done|apply length_vec_to_list].
  - by eexists.
  - intros ii Hii. destruct (decide (ii = i)) as [->|Hne].
    + exists (layer_tensor l), row, lm. split_and!; [done..|].
      apply list_lookup_insert_eq. destruct Hshape as [-> _]. done.
    + destruct (Hconv ii) as (m' & r' & lm' & ? & ? & ?); [lia|].
      exists m', r', lm'. split_and!; [done..|].
      by rewrite list_lookup_insert_ne.
Qed.

Lemma conversion_loop_sound :
  sound (loop_inv ext N_layers) (conversion_loop ext c2).
Proof.
  unfold conversion_loop, np.arange.
  apply (sound_for_each_seq (loop_inv ext) _ 0 N_layers).
  - split_and!; simpl; [apply has_shape_zeros2|lia|lia].
  - intros i s [_ Hi] Hinv. by apply convert_layer_sound.
Qed.

End cell1.

(** ** The arrays of the first cell *)

(** C3: the interface positions [z] are [N_layers] numbers, starting at
    0, strictly decreasing from each index to the next, and ending at
    [-H] with [H = 2000]. *)
Theorem z_monotonically_decreasing :
  length z = N_layers ∧
  (∃ z0, z !! 0%nat = Some z0 ∧ z0 == 0) ∧
  (∀ i, (i + 1 < N_layers)%nat →
     ∃ a b, z !! i = Some a ∧ z !! (i + 1)%nat = Some b ∧ b < a) ∧
  z !! (N_layers - 1)%nat = Some (- H) ∧
  last z = Some (- H) ∧
  H == 2000.
Proof.
  split_and!.
  - apply length_z.
  - destruct (lookup_linspace 0 (- H) N_layers 0) as (v & Hv & Heq).
    { unfold N_layers. lia. }
    exists v. split; [done|]. rewrite Heq. change (inject_Z (Z.of_nat 0)) with 0. ring.
  - intros i Hi.
    destruct (lookup_lt_is_Some_2 z i) as [a Ha]; [rewrite length_z; lia|].
    destruct (lookup_lt_is_Some_2 z (i + 1)) as [b Hb]; [by rewrite length_z|].
    exists a, b. split_and!; [done..|].
    apply (linspace_decreasing 0 (- H) N_layers i); [reflexivity|done..].
  - apply lookup_linspace_last. unfold N_layers. lia.
  - rewrite last_lookup, length_z.
    apply (lookup_linspace_last 0 (- H) N_layers). unfold N_layers. lia.
  - reflexivity.
Qed.

Lemma z_monotonically_decreasing_witness :
  (98 + 1 < N_layers)%nat ∧
  ∃ a b, z !! 98%nat = Some a ∧ z !! (98 + 1)%nat = Some b ∧ b < a.
Proof.
  assert (Hi : (98 + 1 < N_layers)%nat) by (unfold N_layers; lia).
  split; [exact Hi|].
  exact (proj1 (proj2 (proj2 z_monotonically_decreasing)) 98%nat Hi).
Defined.

Lemma get2_diag3 (a b c : Q) :
  np.get2 (diag3 a b c) 0 0 = Ok a ∧ np.get2 (diag3 a b c) 1 1 = Ok b ∧
  np.get2 (diag3 a b c) 2 2 = Ok c.
Proof. done. Qed.

Lemma diag3_symmetric (a b c : Q) :
  has_shape 3 3 (diag3 a b c) ∧
  np.transpose 3 (diag3 a b c) = diag3 a b c ∧
  ∀ i j, (i < 3)%nat → (j < 3)%nat → i ≠ j → np.get2 (diag3 a b c) i j = Ok 0.
Proof.
  split_and!.
  - split; [done|]. by repeat constructor.
  - done.
  - intros i j Hi Hj Hne.
    destruct i as [|[|[|?]]], j as [|[|[|?]]]; try lia; done.
Qed.

(** C4: the structure tensor of every layer is a 3×3 matrix equal to its
    transpose; its off-diagonal entries are the zeros it was created
    with. *)
Theorem c2_symmetric (ii : nat) :
  (ii < N_layers)%nat →
  c2_profile = Ok c2 ∧
  ∃ m, c2 !! ii = Some m ∧ has_shape 3 3 m ∧ np.transpose 3 m = m ∧
       ∀ i j, (i < 3)%nat → (j < 3)%nat → i ≠ j → np.get2 m i j = Ok 0.
Proof.
  intros Hii. split; [by rewrite c2_profile_ok, c2_eq|].
  destruct (lookup_c2 ii Hii) as (l & _ & Hm).
  exists (layer_tensor l). split; [done|]. apply diag3_symmetric.
Qed.

Lemma c2_symmetric_witness :
  (7 < N_layers)%nat ∧
  c2_profile = Ok c2 ∧
  ∃ m, c2 !! 7%nat = Some m ∧ has_shape 3 3 m ∧ np.transpose 3 m = m ∧
       ∀ i j, (i < 3)%nat → (j < 3)%nat → i ≠ j → np.get2 m i j = Ok 0.
Proof.
  assert (Hii : (7 < N_layers)%nat) by (unfold N_layers; lia).
  split; [exact Hii|exact (c2_symmetric 7 Hii)].
Defined.

(** C8: for every layer, with [l = lambdavec[ii]] between 1/2 and 9/10,
    the diagonal of the structure tensor is [3/10*(1-l)], [7/10*(1-l)],
    [l]; each entry lies in [0, 1] and they sum to 1. *)
Theorem c2_unit_trace (ii : nat) :
  (ii < N_layers)%nat →
  ∃ l m a b c,
    lambdavec !! ii = Some l ∧ 1 # 2 <= l ∧ l <= 9 # 10 ∧
    c2 !! ii = Some m ∧
    np.get2 m 0 0 = Ok a ∧ np.get2 m 1 1 = Ok b ∧ np.get2 m 2 2 = Ok c ∧
    a = 3 / 10 * (1 - l) ∧ b = 7 / 10 * (1 - l) ∧ c = l ∧
    (0 <= a ∧ a <= 1) ∧ (0 <= b ∧ b <= 1) ∧ (0 <= c ∧ c <= 1) ∧
    a + b + c == 1.
Proof.
  intros Hii. destruct (lookup_c2 ii Hii) as (l & Hl & Hm).
  destruct (lambdavec_bounds l) as [Hlo Hhi].
  { apply list_elem_of_lookup. eauto. }
  exists l, (layer_tensor l), (3 / 10 * (1 - l)), (7 / 10 * (1 - l)), l.
  assert (H3 : 3 / 10 == 3 # 10) by reflexivity.
  assert (H7 : 7 / 10 == 7 # 10) by reflexivity.
  split_and!; try done; rewrite ?H3, ?H7; lra.
Qed.

Lemma c2_unit_trace_witness :
  (99 < N_layers)%nat ∧
  ∃ l m a b c,
    lambdavec !! 99%nat = Some l ∧ 1 # 2 <= l ∧ l <= 9 # 10 ∧
    c2 !! 99%nat = Some m ∧
    np.get2 m 0 0 = Ok a ∧ np.get2 m 1 1 = Ok b ∧ np.get2 m 2 2 = Ok c ∧
    a = 3 / 10 * (1 - l) ∧ b = 7 / 10 * (1 - l) ∧ c = l ∧
    (0 <= a ∧ a <= 1) ∧ (0 <= b ∧ b <= 1) ∧ (0 <= c ∧ c <= 1) ∧
    a + b + c == 1.
Proof.
  assert (Hii : (99 < N_layers)%nat) by (unfold N_layers; lia).
  split; [exact Hii|exact (c2_unit_trace 99 Hii)].
Defined.

(** C9: in every layer the vertical entry [c2[ii][2][2] = lambdavec[ii]]
    is at least 1/2 and strictly exceeds the two other diagonal entries. *)
Theorem c2_vertical_maximum (ii : nat) :
  (ii < N_layers)%nat →
  ∃ l m a b,
    lambdavec !! ii = Some l ∧ c2 !! ii = Some m ∧
    np.get2 m 2 2 = Ok l ∧ 1 # 2 <= l ∧
    np.get2 m 0 0 = Ok a ∧ a = 3 / 10 * (1 - l) ∧ a < l ∧
    np.get2 m 1 1 = Ok b ∧ b = 7 / 10 * (1 - l) ∧ b < l.
Proof.
  intros Hii. destruct (lookup_c2 ii Hii) as (l & Hl & Hm).
  destruct (lambdavec_bounds l) as [Hlo Hhi].
  { apply list_elem_of_lookup. eauto. }
  exists l, (layer_tensor l), (3 / 10 * (1 - l)), (7 / 10 * (1 - l)).
  assert (H3 : 3 / 10 == 3 # 10) by reflexivity.
  assert (H7 : 7 / 10 == 7 # 10) by reflexivity.
  split_and!; try done; rewrite ?H3, ?H7; lra.
Qed.

Lemma c2_vertical_maximum_witness :
  (0 < N_layers)%nat ∧
  ∃ l m a b,
    lambdavec !! 0%nat = Some l ∧ c2 !! 0%nat = Some m ∧
    np.get2 m 2 2 = Ok l ∧ 1 # 2 <= l ∧
    np.get2 m 0 0 = Ok a ∧ a = 3 / 10 * (1 - l) ∧ a < l ∧
    np.get2 m 1 1 = Ok b ∧ b = 7 / 10 * (1 - l) ∧ b < l.
Proof.
  assert (Hii : (0 < N_layers)%nat) by (unfold N_layers; lia).
  split; [exact Hii|exact (c2_vertical_maximum 0 Hii)].
Defined.

(** ** The run of the two cells *)

Lemma force_isotropic_ok (nlm : list (list complex)) row :
  nlm !! 0%nat = Some row →
  force_isotropic nlm =
    Ok (<[0%nat := take 1 row ++ replicate (length row - 1) czero]> nlm).
Proof.
  intros Hrow. unfold force_isotropic, np.fill_row_from, np.get.
  by rewrite Hrow.
Qed.

Lemma take1_vec_to_list {A} (r : vec A 6) :
  take 1 (vec_to_list r) = [r !!! 0%fin].
Proof. by inv_vec r. Qed.

Section cell1_run.
Context {LM Stack Returns Eigvals Frame A2 Plt : Type}.
Variable ext : Externals LM Stack Returns Eigvals Frame A2 Plt.

Lemma plot_layer_sound nlm lm (I : Z) :
  has_shape N_layers 6 nlm → is_Some lm →
  I ∈ [1; py_int (inject_Z (Z.of_nat N_layers) / 2); -1]%Z →
  sound (λ _, True) (plot_layer ext nlm lm I tt).
Proof.
  intros Hshape [lm' ->] HI. unfold plot_layer.
  assert (∃ i, (i < N_layers)%nat ∧ py_index N_layers I = Some i) as (i & Hi & Hidx).
  { repeat (apply elem_of_cons in HI as [->|HI]);
      [exists 1%nat|exists 50%nat|exists 99%nat|by apply elem_of_nil in HI];
      (split; [unfold N_layers; lia|reflexivity]). }
  destruct (has_shape_lookup _ _ _ i Hshape Hi) as (row & Hrow & _).
  destruct (lookup_lt_is_Some_2 z i) as [zI HzI]; [by rewrite length_z|].
  destruct Hshape as [Hlen _]. rewrite Hlen, length_z, Hidx.
  eapply sound_bind.
  { eapply (sound_step (λ _, True)); [|done]. unfold np.get. by rewrite Hrow. }
  intros r _. eapply sound_bind; [by apply (sound_ret (λ _, True))|].
  intros l _. eapply sound_bind.
  { eapply (sound_step (λ _, True)); [|done]. unfold np.get. by rewrite HzI. }
  intros q _. by apply sound_extern.
Qed.

Lemma cell1_sound : sound (cell1_post ext) (cell1 ext).
Proof.
  unfold cell1. eapply sound_bind.
  { eapply (sound_step (λ a, a = c2)); [|done]. by rewrite c2_profile_ok, c2_eq. }
  intros ? ->. eapply sound_bind; [apply conversion_loop_sound|].
  intros [nlm lm] (Hshape & Hlm & Hconv). simpl in Hshape, Hlm, Hconv.
  destruct (Hconv 0%nat) as (m & r & lm0 & Hm & Hcall & Hrow).
  { unfold N_layers. lia. }
  eapply sound_bind.
  { eapply sound_step; [by apply force_isotropic_ok|].
    instantiate (1 := λ a, a = <[0%nat := r !!! 0%fin :: replicate 5 czero]> nlm).
    simpl. by rewrite take1_vec_to_list, length_vec_to_list. }
  intros ? ->.
  assert (Hshape' : has_shape N_layers 6
            (<[0%nat := r !!! 0%fin :: replicate 5 czero]> nlm)).
  { by apply has_shape_insert. }
  eapply sound_bind.
  { apply (sound_for_each (λ _, True)); [done|].
    intros I [] HI _. apply plot_layer_sound; [done| |done].
    apply Hlm. unfold N_layers. lia. }
  intros _ _. apply sound_ret. split_and!; simpl; try done.
  - exists m, r, lm0. split_and!; [done..|].
    apply list_lookup_insert_eq. destruct Hshape as [-> _]. unfold N_layers. lia.
  - intros ii [Hlo Hhi]. destruct (Hconv ii Hhi) as (m' & r' & lm' & ? & ? & ?).
    exists m', r', lm'. split_and!; [done..|].
    rewrite list_lookup_insert_ne; [done|lia].
Qed.

Lemma cell2_sound a : sound (λ _, True) (cell2 ext a).
Proof.
  unfold cell2.
  eapply sound_bind; [by apply (sound_extern (λ _, True))|]. intros lstack _.
  eapply sound_bind; [by apply (sound_extern (λ _, True))|]. intros returns _.
  eapply sound_bind; [by apply (sound_extern (λ _, True))|].
  intros [[[[eigvals e1] e2] e3] a2] _.
  eapply sound_bind; [by apply (sound_extern (λ _, True))|]. intros plt _.
  by apply sound_extern.
Qed.

Lemma notebook_sound : sound (cell1_post ext) (notebook ext).
Proof.
  unfold notebook. eapply sound_bind; [apply cell1_sound|].
  intros a Ha. eapply sound_bind; [apply cell2_sound|].
  intros _ _. by apply sound_ret.
Qed.

End cell1_run.

(** ** The conversion loop and the isotropy assignment *)

Section claims.
Context {LM Stack Returns Eigvals Frame A2 Plt : Type}.
Variable ext : Externals LM Stack Returns Eigvals Frame A2 Plt.

Lemma conversion_loop_shape nlm lm :
  outcome (conversion_loop ext c2) = Ok (nlm, lm) →
  ∃ row, has_shape N_layers 6 nlm ∧ nlm !! 0%nat = Some row ∧ length row = 6%nat.
Proof.
  intros Hrun.
  destruct (sound_ok _ _ _ (conversion_loop_sound ext) Hrun) as (_ & Hshape & _).
  simpl in Hshape.
  destruct (has_shape_lookup _ _ _ 0 Hshape) as (row & Hrow & Hlen).
  { unfold N_layers. lia. }
  by exists row.
Qed.

Lemma convert_layer_calls c2' i s :
  Forall (λ ev, ev.1 = call_c2_to_nlm) (trace (convert_layer ext c2' i s)).
Proof.
  unfold convert_layer, mbind, M_bind, step, extern; simpl.
  destruct (np.get c2' i) as [m|]; simpl; [|constructor].
  destruct (c2_to_nlm ext m) as [[row lm]|e]; simpl; [|by repeat constructor].
  destruct (np.assign_row _ _ _); simpl; by repeat constructor.
Qed.

Lemma for_each_calls {I St} (P : event → Prop) (body : I → St → M St) l s :
  (∀ i s, Forall P (trace (body i s))) → Forall P (trace (for_each body l s)).
Proof.
  intros Hbody. revert s. induction l as [|i l IH]; intros s; simpl.
  - constructor.
  - unfold mbind, M_bind. destruct (outcome (body i s)); simpl; [|done].
    apply Forall_app. split; [done|apply IH].
Qed.

Lemma convert_layer_quiet c2' i s :
  (∀ m, ∃ p, c2_to_nlm ext m = Ok p) →
  quiet (trace (convert_layer ext c2' i s)).
Proof.
  intros Hall. unfold convert_layer, mbind, M_bind, step, extern; simpl.
  destruct (np.get c2' i) as [m|]; simpl; [|constructor].
  destruct (Hall m) as [[row lm] ->]; simpl.
  destruct (np.assign_row _ _ _); simpl; by repeat constructor.
Qed.

Lemma conversion_loop_calls c2' :
  Forall (λ ev, ev.1 = call_c2_to_nlm) (trace (conversion_loop ext c2')).
Proof. apply for_each_calls. apply convert_layer_calls. Qed.

(** C1: once the conversion loop has completed, [nlm[0, 1:] = 0]
    succeeds and leaves a top row of six entries whose entries at
    columns 1 to 5 are all zero. *)
Theorem top_layer_forced_isotropic nlm lm :
  outcome (conversion_loop ext c2) = Ok (nlm, lm) →
  ∃ nlm' row0,
    force_isotropic nlm = Ok nlm' ∧ has_shape N_layers 6 nlm' ∧
    nlm' !! 0%nat = Some row0 ∧ length row0 = 6%nat ∧
    ∀ j, (1 ≤ j < 6)%nat → row0 !! j = Some czero ∧ np.get2 nlm' 0 j = Ok czero.
Proof.
  intros Hrun.
  destruct (conversion_loop_shape nlm lm Hrun) as (row & Hshape & Hrow & Hlen).
  assert (Hlookup :
    <[0%nat := take 1 row ++ replicate (length row - 1) czero]> nlm !! 0%nat
    = Some (take 1 row ++ replicate (length row - 1) czero)).
  { apply list_lookup_insert_eq. destruct Hshape as [-> _]. unfold N_layers. lia. }
  assert (Hzero : ∀ j, (1 ≤ j < 6)%nat →
    (take 1 row ++ replicate (length row - 1) czero) !! j = Some czero).
  { intros j Hj. rewrite lookup_app_r; rewrite length_take, Hlen; [|lia].
    apply lookup_replicate_2. lia. }
  eexists _, _. split_and!.
  - by apply force_isotropic_ok.
  - apply has_shape_insert; [done|].
    rewrite length_app, length_take, length_replicate. lia.
  - done.
  - rewrite length_app, length_take, length_replicate. lia.
  - intros j Hj. split; [by apply Hzero|].
    unfold np.get2, np.get. rewrite Hlookup. simpl. by rewrite Hzero.
Qed.

(** C2: the assignment [nlm[0, 1:] = 0] leaves every entry of the rows
    [ii >= 1] and the entry [nlm[0, 0]] as the conversion loop produced
    them. *)
Theorem isotropy_assignment_frame nlm lm :
  outcome (conversion_loop ext c2) = Ok (nlm, lm) →
  ∃ nlm',
    force_isotropic nlm = Ok nlm' ∧
    ∀ ii j, (1 ≤ ii)%nat ∨ (ii = 0%nat ∧ j = 0%nat) →
      np.get2 nlm' ii j = np.get2 nlm ii j.
Proof.
  intros Hrun.
  destruct (conversion_loop_shape nlm lm Hrun) as (row & Hshape & Hrow & Hlen).
  eexists. split; [by apply force_isotropic_ok|].
  intros ii j [Hii|[-> ->]]; unfold np.get2, np.get.
  - rewrite list_lookup_insert_ne; [done|lia].
  - rewrite list_lookup_insert_eq, Hrow.
    + simpl. rewrite lookup_app_l; [|rewrite length_take; lia].
      rewrite lookup_take_lt; [done|lia].
    + destruct Hshape as [-> _]. unfold N_layers. lia.
Qed.

(** C5, as amended: in the final state of the notebook, every row
    [ii >= 1] of [nlm] is the first component of [c2_to_nlm(c2[ii])];
    row 0 keeps only the first entry of [c2_to_nlm(c2[0])], followed by
    zeros. *)
Theorem nlm_rows_converted a :
  outcome (notebook ext) = Ok a →
  top_isotropic ext (a_nlm a) ∧
  ∀ ii, (1 ≤ ii < N_layers)%nat → converted ext (a_nlm a) ii.
Proof.
  intros Hrun.
  destruct (sound_ok _ _ _ (notebook_sound ext) Hrun)
    as (_ & _ & _ & _ & _ & Htop & Hrows).
  done.
Qed.

(** C10: the loop index stays below [N_layers], the leading dimension
    of both [c2] and [nlm]; reading [c2[ii]] and writing [nlm[ii]]
    succeed at every index of the loop; the loop can only end with an
    exception that [c2_to_nlm] raised, and completes when [c2_to_nlm]
    never raises. *)
Theorem conversion_loop_in_bounds :
  length c2 = N_layers ∧
  has_shape N_layers 6 (np.zeros2 czero N_layers 6) ∧
  (∀ ii, ii ∈ np.arange N_layers →
     (ii < N_layers)%nat ∧
     (∃ m, np.get c2 ii = Ok m) ∧
     ∀ nlm (r : vec complex 6), has_shape N_layers 6 nlm →
       ∃ nlm', np.assign_row nlm ii (vec_to_list r) = Ok nlm' ∧
               has_shape N_layers 6 nlm') ∧
  (∀ e, outcome (conversion_loop ext c2) = Raise e →
     raised_by_library (conversion_loop ext c2) e) ∧
  (∀ e, outcome (conversion_loop ext c2) = Raise e →
     ∃ t, trace (conversion_loop ext c2) = t ++ [(call_c2_to_nlm, Some e)]) ∧
  ((∀ m, ∃ p, c2_to_nlm ext m = Ok p) →
     ∃ nlm lm, outcome (conversion_loop ext c2) = Ok (nlm, lm)).
Proof.
  split_and!.
  - apply length_c2.
  - apply has_shape_zeros2.
  - intros ii Hii. unfold np.arange in Hii.
    apply elem_of_seq in Hii. assert (Hlt : (ii < N_layers)%nat) by lia.
    split_and!; [done| |].
    + destruct (lookup_c2 ii Hlt) as (l & _ & Hm).
      eexists. unfold np.get. by rewrite Hm.
    + intros nlm r Hshape.
      destruct (has_shape_lookup _ _ _ ii Hshape Hlt) as (row & Hrow & Hlen).
      eexists. split.
      * eapply assign_row_ok; [done|]. by rewrite length_vec_to_list.
      * apply has_shape_insert; [done|apply length_vec_to_list].
  - intros e. apply sound_raise with (P := loop_inv ext N_layers).
    apply conversion_loop_sound.
  - intros e Hrun.
    destruct (sound_raise _ _ _ (conversion_loop_sound ext) Hrun)
      as (t & c & Ht & _).
    exists t. rewrite Ht. repeat f_equal.
    pose proof (conversion_loop_calls c2) as Hcalls.
    rewrite Ht in Hcalls. apply Forall_app in Hcalls as [_ Hlast].
    by apply Forall_inv in Hlast.
  - intros Hall.
    destruct (outcome (conversion_loop ext c2)) as [[nlm lm]|e] eqn:Hrun.
    { by exists nlm, lm. }
    destruct (sound_raise _ _ _ (conversion_loop_sound ext) Hrun)
      as (t & c & Ht & _).
    assert (Hquiet : quiet (trace (conversion_loop ext c2))).
    { apply for_each_calls. intros i s. by apply convert_layer_quiet. }
    rewrite Ht in Hquiet. apply Forall_app in Hquiet as [_ Hlast].
    by apply Forall_inv in Hlast.
Qed.

End claims.

(** ** Equal continuations *)

Lemma bind_ext {A B} (m : M A) (k1 k2 : A → M B) :
  (∀ a, k1 a = k2 a) → m ≫= k1 = m ≫= k2.
Proof.
  intros Hk. unfold mbind, M_bind. destruct (outcome m); [|done].
  by rewrite Hk.
Qed.

Lemma for_each_ext {I St} (body1 body2 : I → St → M St) l s :
  (∀ i s, body1 i s = body2 i s) → for_each body1 l s = for_each body2 l s.
Proof.
  intros Hbody. revert s. induction l as [|i l IH]; intros s; simpl; [done|].
  rewrite Hbody. by apply bind_ext.
Qed.

(** ** The sample library at work *)

Example sample_run_completes :
  outcome (notebook sample_externals) = Ok sample_final ∧
  length (trace (notebook sample_externals)) = 108%nat ∧
  a_nlm sample_final !! 0%nat = Some (of_real 1 :: replicate 5 czero).
Proof. vm_compute. done. Qed.

Example failing_run_raises :
  outcome (notebook failing_externals)
    = Raise (OtherError "LayerStack: unsupported profile") ∧
  last (trace (notebook failing_externals))
    = Some (call_LayerStack, Some (OtherError "LayerStack: unsupported profile")) ∧
  length (trace (notebook failing_externals)) = 104%nat.
Proof. vm_compute. done. Qed.

Lemma sample_loop_completes :
  outcome (conversion_loop sample_externals c2) = Ok (sample_loop_nlm, Some ()).
Proof. vm_compute. reflexivity. Qed.

Lemma sample_notebook_completes :
  outcome (notebook sample_externals) = Ok sample_final.
Proof. vm_compute. reflexivity. Qed.

Lemma top_layer_forced_isotropic_witness :
  outcome (conversion_loop sample_externals c2) = Ok (sample_loop_nlm, Some ()) ∧
  ∃ nlm' row0,
    force_isotropic sample_loop_nlm = Ok nlm' ∧ has_shape N_layers 6 nlm' ∧
    nlm' !! 0%nat = Some row0 ∧ length row0 = 6%nat ∧
    ∀ j, (1 ≤ j < 6)%nat → row0 !! j = Some czero ∧ np.get2 nlm' 0 j = Ok czero.
Proof.
  split; [exact sample_loop_completes|].
  apply (top_layer_forced_isotropic sample_externals sample_loop_nlm (Some ())).
  vm_compute. reflexivity.
Defined.

Lemma isotropy_assignment_frame_witness :
  outcome (conversion_loop sample_externals c2) = Ok (sample_loop_nlm, Some ()) ∧
  ∃ nlm',
    force_isotropic sample_loop_nlm = Ok nlm' ∧
    ∀ ii j, (1 ≤ ii)%nat ∨ (ii = 0%nat ∧ j = 0%nat) →
      np.get2 nlm' ii j = np.get2 sample_loop_nlm ii j.
Proof.
  split; [exact sample_loop_completes|].
  apply (isotropy_assignment_frame sample_externals sample_loop_nlm (Some ())).
  vm_compute. reflexivity.
Defined.

(** The claim of C5 as first stated fails on the sample library: the
    top row of the final [nlm] is not what [c2_to_nlm] returned for the
    top layer. *)
Lemma all_rows_converted_fails : ¬ all_rows_converted sample_externals.
Proof.
  intros Hall.
  destruct (Hall sample_final sample_notebook_completes 0%nat)
    as (m & r & lm & Hm & Hcall & Hrow).
  { unfold N_layers. lia. }
  vm_compute in Hm. injection Hm as <-.
  vm_compute in Hcall. injection Hcall as <- _.
  vm_compute in Hrow. discriminate Hrow.
Qed.

Lemma nlm_rows_converted_witness :
  outcome (notebook sample_externals) = Ok sample_final ∧
  top_isotropic sample_externals (a_nlm sample_final) ∧
  ∀ ii, (1 ≤ ii < N_layers)%nat →
    converted sample_externals (a_nlm sample_final) ii.
Proof.
  split; [exact sample_notebook_completes|].
  apply (nlm_rows_converted sample_externals sample_final).
  vm_compute. reflexivity.
Defined.

Lemma conversion_loop_in_bounds_witness :
  outcome (conversion_loop strict_externals c2) = Raise ValueError ∧
  ∃ t, trace (conversion_loop strict_externals c2)
       = t ++ [(call_c2_to_nlm, Some ValueError)].
Proof.
  assert (Hrun : outcome (conversion_loop strict_externals c2) = Raise ValueError).
  { vm_compute. reflexivity. }
  split; [exact Hrun|].
  exact (proj1 (proj2 (proj2 (proj2 (proj2
           (conversion_loop_in_bounds strict_externals))))) ValueError Hrun).
Defined.


(** * Further properties of the notebook *)

(** ** The depth profiles *)

Lemma linspace_spacing start stop num i a b :
  np.linspace start stop num !! i = Some a →
  np.linspace start stop num !! (i + 1)%nat = Some b →
  (b - a) * inject_Z (Z.of_nat (num - 1)) == stop - start.
Proof.
  intros Ha Hb.
  assert (Hn : (1 < num)%nat).
  { apply lookup_lt_Some in Hb. rewrite length_linspace in Hb. lia. }
  destruct (linspace_sample _ _ _ _ _ Ha Hn)
    as (x & n & ? & ? & ? & Heqa & Hn1 & Hx).
  destruct (linspace_sample _ _ _ _ _ Hb Hn)
    as (x' & n' & ? & ? & ? & Heqb & Hn2 & Hx').
  rewrite inject_nat_succ, <- Hx in Hx'. rewrite <- Hn1 in Hn2 |- *.
  rewrite Hn2, Hx' in Heqb.
  assert (Hdiff : (b - a) * n == b * n - a * n) by ring.
  rewrite Hdiff, Heqa, Heqb. ring.
Qed.

Lemma linspace_increasing start stop num i a b :
  start < stop →
  np.linspace start stop num !! i = Some a →
  np.linspace start stop num !! (i + 1)%nat = Some b →
  a < b.
Proof.
  intros Hlt Ha Hb.
  assert (Hn : (1 < num)%nat).
  { apply lookup_lt_Some in Hb. rewrite length_linspace in Hb. lia. }
  pose proof (linspace_spacing _ _ _ _ _ _ Ha Hb) as Hsp.
  assert (Hpos : 0 < inject_Z (Z.of_nat (num - 1))).
  { change 0 with (inject_Z 0). rewrite <- Zlt_Qlt. lia. }
  apply (Qmult_lt_r _ _ _ Hpos).
  assert (Hdiff : b * inject_Z (Z.of_nat (num - 1))
                  == a * inject_Z (Z.of_nat (num - 1))
                     + (b - a) * inject_Z (Z.of_nat (num - 1))) by ring.
  rewrite Hdiff, Hsp. lra.
Qed.

Lemma linspace_bounds_rev start stop num v :
  stop <= start → v ∈ np.linspace start stop num → stop <= v ∧ v <= start.
Proof.
  intros Hle [i Hv]%list_elem_of_lookup.
  destruct (decide (1 < num)%nat) as [Hn|Hn].
  - destruct (linspace_sample _ _ _ _ _ Hv Hn) as (x & n & ? & ? & ? & Heq & _).
    assert (0 <= x * (start - stop)) by (apply Qmult_le_0_compat; lra).
    assert (0 <= (n - x) * (start - stop)) by (apply Qmult_le_0_compat; lra).
    split; apply (Qmult_le_r _ _ n); try done; rewrite Heq; lra.
  - unfold np.linspace, np.arange in Hv.
    destruct num as [|[|?]]; [done| |lia]. simpl in Hv.
    destruct i; [|done]. injection Hv as <-.
    change (inject_Z (Z.of_nat 0)) with 0. split; lra.
Qed.

(** X1: the layers have equal thickness, up to rounding: consecutive
    interface positions differ by [H / (N_layers - 1)] to within [1e-9],
    and every position lies between [-H] and 0. *)
Theorem z_uniform_spacing (i : nat) :
  (i + 1 < N_layers)%nat →
  ∃ a b, z !! i = Some a ∧ z !! (i + 1)%nat = Some b ∧
         H / inject_Z (Z.of_nat (N_layers - 1)) - (1 # 1000000000) <= a - b ∧
         a - b <= H / inject_Z (Z.of_nat (N_layers - 1)) + (1 # 1000000000) ∧
         (- H <= a ∧ a <= 0) ∧ (- H <= b ∧ b <= 0).
Proof.
  intros Hi.
  destruct (lookup_lt_is_Some_2 z i) as [a Ha]; [rewrite length_z; lia|].
  destruct (lookup_lt_is_Some_2 z (i + 1)) as [b Hb]; [by rewrite length_z|].
  assert (Hle : - H <= 0) by (apply Qlt_le_weak; reflexivity).
  destruct (linspace_bounds_rev 0 (- H) N_layers a Hle) as [Ha1 Ha2].
  { apply list_elem_of_lookup. by exists i. }
  destruct (linspace_bounds_rev 0 (- H) N_layers b Hle) as [Hb1 Hb2].
  { apply list_elem_of_lookup. by exists (i + 1)%nat. }
  pose proof (linspace_spacing 0 (- H) N_layers i a b Ha Hb) as Hsp.
  change (inject_Z (Z.of_nat (N_layers - 1))) with (99 # 1) in *.
  assert (Hdiv : H / (99 # 1) == H * (1 # 99)) by reflexivity.
  exists a, b. split_and!; try done; rewrite Hdiv; lra.
Qed.

Lemma z_uniform_spacing_witness :
  (0 + 1 < N_layers)%nat ∧
  ∃ a b, z !! 0%nat = Some a ∧ z !! (0 + 1)%nat = Some b ∧
         H / inject_Z (Z.of_nat (N_layers - 1)) - (1 # 1000000000) <= a - b ∧
         a - b <= H / inject_Z (Z.of_nat (N_layers - 1)) + (1 # 1000000000) ∧
         (- H <= a ∧ a <= 0) ∧ (- H <= b ∧ b <= 0).
Proof.
  assert (Hi : (0 + 1 < N_layers)%nat) by (unfold N_layers; lia).
  split; [exact Hi|exact (z_uniform_spacing 0 Hi)].
Defined.

(** X2: the principal eigenvalue starts at 1/2 at the surface, ends at
    9/10 at the bed, and grows strictly from each layer to the next. *)
Theorem lambdavec_increasing :
  (∃ l0, lambdavec !! 0%nat = Some l0 ∧ l0 == 1 # 2) ∧
  last lambdavec = Some (9 # 10) ∧
  ∀ i, (i + 1 < N_layers)%nat →
    ∃ a b, lambdavec !! i = Some a ∧ lambdavec !! (i + 1)%nat = Some b ∧
           a < b.
Proof.
  split_and!.
  - destruct (lookup_linspace ((3 # 2) / 3) (9 # 10) N_layers 0)
      as (v & Hv & Heq); [unfold N_layers; lia|].
    exists v. split; [done|]. rewrite Heq.
    change (inject_Z (Z.of_nat 0)) with 0.
    assert (Hhalf : (3 # 2) / 3 == 1 # 2) by reflexivity.
    rewrite Hhalf at 2. ring.
  - rewrite last_lookup, length_lambdavec.
    apply (lookup_linspace_last ((3 # 2) / 3) (9 # 10) N_layers).
    unfold N_layers. lia.
  - intros i Hi.
    destruct (lookup_lt_is_Some_2 lambdavec i) as [a Ha].
    { rewrite length_lambdavec. lia. }
    destruct (lookup_lt_is_Some_2 lambdavec (i + 1)) as [b Hb].
    { by rewrite length_lambdavec. }
    exists a, b. split_and!; [done..|].
    by apply (linspace_increasing ((3 # 2) / 3) (9 # 10) N_layers i).
Qed.

Lemma lambdavec_increasing_witness :
  (98 + 1 < N_layers)%nat ∧
  ∃ a b, lambdavec !! 98%nat = Some a ∧ lambdavec !! (98 + 1)%nat = Some b ∧
         a < b.
Proof.
  assert (Hi : (98 + 1 < N_layers)%nat) by (unfold N_layers; lia).
  split; [exact Hi|].
  exact (proj2 (proj2 lambdavec_increasing) 98%nat Hi).
Defined.

(** X3: every layer is a non-symmetric single maximum: its three
    diagonal entries are positive and strictly ordered,
    [c2[ii,0,0] < c2[ii,1,1] < c2[ii,2,2]]. *)
Theorem c2_eigenvalues_ordered (ii : nat) :
  (ii < N_layers)%nat →
  ∃ m a b c,
    c2 !! ii = Some m ∧
    np.get2 m 0 0 = Ok a ∧ np.get2 m 1 1 = Ok b ∧ np.get2 m 2 2 = Ok c ∧
    0 < a ∧ a < b ∧ b < c.
Proof.
  intros Hii. destruct (lookup_c2 ii Hii) as (l & Hl & Hm).
  destruct (lambdavec_bounds l) as [Hlo Hhi].
  { apply list_elem_of_lookup. eauto. }
  exists (layer_tensor l), (3 / 10 * (1 - l)), (7 / 10 * (1 - l)), l.
  assert (H3 : 3 / 10 == 3 # 10) by reflexivity.
  assert (H7 : 7 / 10 == 7 # 10) by reflexivity.
  split_and!; try done; rewrite ?H3, ?H7; lra.
Qed.

Lemma c2_eigenvalues_ordered_witness :
  (50 < N_layers)%nat ∧
  ∃ m a b c,
    c2 !! 50%nat = Some m ∧
    np.get2 m 0 0 = Ok a ∧ np.get2 m 1 1 = Ok b ∧ np.get2 m 2 2 = Ok c ∧
    0 < a ∧ a < b ∧ b < c.
Proof.
  assert (Hii : (50 < N_layers)%nat) by (unfold N_layers; lia).
  split; [exact Hii|exact (c2_eigenvalues_ordered 50 Hii)].
Defined.

(** X4: the fabric strengthens with depth: from each layer to the next
    the vertical entry of the structure tensor grows and the two
    horizontal entries shrink. *)
Theorem c2_strengthens_with_depth (ii : nat) :
  (ii + 1 < N_layers)%nat →
  ∃ m m' a b c a' b' c',
    c2 !! ii = Some m ∧ c2 !! (ii + 1)%nat = Some m' ∧
    np.get2 m 0 0 = Ok a ∧ np.get2 m 1 1 = Ok b ∧ np.get2 m 2 2 = Ok c ∧
    np.get2 m' 0 0 = Ok a' ∧ np.get2 m' 1 1 = Ok b' ∧ np.get2 m' 2 2 = Ok c' ∧
    a' < a ∧ b' < b ∧ c < c'.
Proof.
  intros Hii.
  destruct (lookup_c2 ii) as (l & Hl & Hm); [lia|].
  destruct (lookup_c2 (ii + 1) Hii) as (l' & Hl' & Hm').
  assert (Hlt : l < l').
  { by apply (linspace_increasing ((3 # 2) / 3) (9 # 10) N_layers ii). }
  exists (layer_tensor l), (layer_tensor l'),
    (3 / 10 * (1 - l)), (7 / 10 * (1 - l)), l,
    (3 / 10 * (1 - l')), (7 / 10 * (1 - l')), l'.
  assert (H3 : 3 / 10 == 3 # 10) by reflexivity.
  assert (H7 : 7 / 10 == 7 # 10) by reflexivity.
  split_and!; try done; rewrite ?H3, ?H7; lra.
Qed.

Lemma c2_strengthens_with_depth_witness :
  (0 + 1 < N_layers)%nat ∧
  ∃ m m' a b c a' b' c',
    c2 !! 0%nat = Some m ∧ c2 !! (0 + 1)%nat = Some m' ∧
    np.get2 m 0 0 = Ok a ∧ np.get2 m 1 1 = Ok b ∧ np.get2 m 2 2 = Ok c ∧
    np.get2 m' 0 0 = Ok a' ∧ np.get2 m' 1 1 = Ok b' ∧ np.get2 m' 2 2 = Ok c' ∧
    a' < a ∧ b' < b ∧ c < c'.
Proof.
  assert (Hii : (0 + 1 < N_layers)%nat) by (unfold N_layers; lia).
  split; [exact Hii|exact (c2_strengthens_with_depth 0 Hii)].
Defined.

(** ** The order of the calls *)

Lemma bind_ok {A B} (m : M A) (k : A → M B) a :
  outcome m = Ok a →
  m ≫= k = mkM (trace m ++ trace (k a)) (outcome (k a)).
Proof. intros Hm. unfold mbind, M_bind. by rewrite Hm. Qed.

Lemma bind_raise {A B} (m : M A) (k : A → M B) e :
  outcome m = Raise e → m ≫= k = mkM (trace m) (Raise e).
Proof. intros Hm. unfold mbind, M_bind. by rewrite Hm. Qed.

Lemma step_bind {A B} (a : A) (k : A → M B) : step (Ok a) ≫= k = k a.
Proof. unfold mbind, M_bind, step; simpl. by destruct (k a). Qed.

Lemma bind_ret {A} (m : M A) : m ≫= mret = m.
Proof.
  unfold mbind, M_bind. destruct m as [t [a|e]]; simpl; [|done].
  by rewrite app_nil_r.
Qed.

Section follows.
Context {A B : Type}.

Lemma follows_ret (a : A) : follows [] (mret a).
Proof. by split. Qed.

Lemma follows_step (r : result A) : follows [] (step r).
Proof. by split. Qed.

Lemma follows_name (v : option A) : follows [] (name v).
Proof. destruct v; by split. Qed.

Lemma follows_extern c (r : result A) : follows [c] (extern c r).
Proof. destruct r; by split. Qed.

Lemma follows_bind cs1 cs2 (m : M A) (k : A → M B) :
  follows cs1 m → (∀ a, follows cs2 (k a)) → follows (cs1 ++ cs2) (m ≫= k).
Proof.
  intros [Hpre Hall] Hk. destruct (outcome m) as [a|e] eqn:Hm.
  - rewrite (bind_ok _ _ _ Hm). destruct (Hk a) as [Hpre' Hall'].
    unfold follows, calls in *; simpl. rewrite fmap_app, (Hall a eq_refl).
    split; [by apply prefix_app|].
    intros b Hb. by rewrite (Hall' b Hb).
  - rewrite (bind_raise _ _ _ Hm). unfold follows, calls in *; simpl.
    split; [by apply prefix_app_r|done].
Qed.

End follows.

Lemma follows_for_each {I St} c (body : I → St → M St) l s :
  (∀ i s, follows [c] (body i s)) →
  follows (replicate (length l) c) (for_each body l s).
Proof.
  intros Hbody. revert s. induction l as [|i l IH]; intros s; simpl.
  - apply follows_ret.
  - apply (follows_bind [c]); [apply Hbody|apply IH].
Qed.

Section order.
Context {LM Stack Returns Eigvals Frame A2 Plt : Type}.
Variable ext : Externals LM Stack Returns Eigvals Frame A2 Plt.

Lemma convert_layer_follows c2' i s :
  follows [call_c2_to_nlm] (convert_layer ext c2' i s).
Proof.
  unfold convert_layer.
  apply (follows_bind [] [call_c2_to_nlm]); [apply follows_step|]. intros m.
  apply (follows_bind [call_c2_to_nlm] []); [apply follows_extern|].
  intros [row lm].
  apply (follows_bind [] []); [apply follows_step|]. intros nlm.
  apply follows_ret.
Qed.

Lemma plot_layer_follows nlm lm I u :
  follows [call_plot_ODF] (plot_layer ext nlm lm I u).
Proof.
  unfold plot_layer.
  apply (follows_bind [] [call_plot_ODF]); [apply follows_step|]. intros row.
  apply (follows_bind [] [call_plot_ODF]); [apply follows_name|]. intros lm'.
  apply (follows_bind [] [call_plot_ODF]); [apply follows_step|]. intros zI.
  apply follows_extern.
Qed.

(** X5: the libraries are called in a fixed order: one [c2_to_nlm] per
    layer, then three [plot_ODF], then [LayerStack], [get_returns],
    [get_eigenbasis], [plot_returns] and [show].  A run that raises has
    performed an initial part of this sequence; a run that completes
    has performed all of it. *)
Theorem notebook_call_order :
  calls (notebook ext) `prefix_of` script_calls ∧
  ∀ a, outcome (notebook ext) = Ok a → calls (notebook ext) = script_calls.
Proof.
  change (follows script_calls (notebook ext)).
  unfold notebook, script_calls.
  assert (Hloop : ∀ c2', follows (replicate N_layers call_c2_to_nlm)
                           (conversion_loop ext c2')).
  { intros c2'. unfold conversion_loop, np.arange.
    rewrite <- (length_seq 0 N_layers) at 1.
    apply follows_for_each. intros i s. apply convert_layer_follows. }
  generalize dependent (replicate N_layers call_c2_to_nlm). intros convs Hloop.
  set (plots := replicate 3 call_plot_ODF).
  set (stack := [call_LayerStack; call_get_returns; call_get_eigenbasis;
                 call_plot_returns; call_show]).
  replace (convs ++ plots ++ stack) with ((convs ++ plots) ++ stack ++ [])
    by (by rewrite app_nil_r, (assoc_L (++))).
  apply follows_bind; [|intros a; apply follows_bind; [|intros; apply follows_ret]].
  - (* the first cell *)
    unfold cell1.
    apply (follows_bind [] (convs ++ plots)); [apply follows_step|]. intros c2'.
    apply (follows_bind convs plots); [apply Hloop|].
    intros [nlm lm].
    apply (follows_bind [] plots); [apply follows_step|]. intros nlm'.
    replace plots with (plots ++ []) by apply app_nil_r.
    apply (follows_bind plots []); [|intros; apply follows_ret].
    apply (follows_for_each call_plot_ODF _ [_; _; _]).
    intros I u. apply plot_layer_follows.
  - (* the second cell *)
    unfold cell2, stack.
    apply (follows_bind [_] _); [apply follows_extern|]. intros lstack.
    apply (follows_bind [_] _); [apply follows_extern|]. intros returns.
    apply (follows_bind [_] _); [apply follows_extern|].
    intros [[[[eigvals e1] e2] e3] a2].
    apply (follows_bind [_] [_]); [apply follows_extern|]. intros plt.
    apply follows_extern.
Qed.

End order.

Lemma notebook_call_order_witness :
  outcome (notebook sample_externals) = Ok sample_final ∧
  calls (notebook sample_externals) = script_calls.
Proof.
  split; [exact sample_notebook_completes|].
  exact (proj2 (notebook_call_order sample_externals) sample_final
           sample_notebook_completes).
Defined.

(** ** One iteration of the conversion loop *)

Section iteration_eqs.
Context {LM Stack Returns Eigvals Frame A2 Plt : Type}.
Variable ext : Externals LM Stack Returns Eigvals Frame A2 Plt.

Lemma convert_layer_returns c2' ii s m row lm old :
  c2' !! ii = Some m → c2_to_nlm ext m = Ok (row, lm) →
  s.1 !! ii = Some old → length old = 6%nat →
  convert_layer ext c2' ii s
  = mkM [(call_c2_to_nlm, None)] (Ok (<[ii := vec_to_list row]> s.1, Some lm)).
Proof.
  intros Hm Hcall Hold Hlen. unfold convert_layer, np.get.
  rewrite Hm, step_bind, Hcall. unfold extern.
  rewrite (bind_ok _ _ (row, lm)) by done. cbv beta iota.
  rewrite (assign_row_ok _ _ _ old Hold) by (by rewrite length_vec_to_list).
  by rewrite step_bind.
Qed.

Lemma convert_layer_raises c2' ii s m e :
  c2' !! ii = Some m → c2_to_nlm ext m = Raise e →
  convert_layer ext c2' ii s = mkM [(call_c2_to_nlm, Some e)] (Raise e).
Proof.
  intros Hm Hcall. unfold convert_layer, np.get.
  rewrite Hm, step_bind, Hcall. unfold extern.
  by rewrite (bind_raise _ _ e).
Qed.

End iteration_eqs.

Section iteration.
Context {LM Stack Returns Eigvals Frame A2 Plt : Type}.
Variable ext : Externals LM Stack Returns Eigvals Frame A2 Plt.

(** X6: an iteration that completes has called [c2_to_nlm] on layer
    [ii], bound [lm] to its second result, and replaced row [ii] of
    [nlm] by its six coefficients; the array keeps its length and every
    other row is left as it was. *)
Theorem convert_layer_frame c2' ii s s' :
  outcome (convert_layer ext c2' ii s) = Ok s' →
  ∃ m r lm,
    c2' !! ii = Some m ∧ c2_to_nlm ext m = Ok (r, lm) ∧
    s'.2 = Some lm ∧ s'.1 !! ii = Some (vec_to_list r) ∧
    length s'.1 = length s.1 ∧
    ∀ j, j ≠ ii → s'.1 !! j = s.1 !! j.
Proof.
  unfold convert_layer, np.get, np.assign_row, np.get.
  unfold mbind at 1 2 3, M_bind, step, extern.
  destruct (c2' !! ii) as [m|] eqn:Hm; simpl; [|done].
  destruct (c2_to_nlm ext m) as [[r lm]|e] eqn:Hcall; simpl; [|done].
  destruct (s.1 !! ii) as [old|] eqn:Hold; simpl; [|done].
  inv_vec r. intros x0 x1 x2 x3 x4 x5 Hcall. simpl.
  case_decide as Hlen; simpl; [|done].
  intros [= <-]. exists m, [# x0; x1; x2; x3; x4; x5], lm. simpl.
  split_and!; [done..| | |].
  - apply list_lookup_insert_eq. by eapply lookup_lt_Some.
  - apply length_insert.
  - intros j Hj. by apply list_lookup_insert_ne.
Qed.

End iteration.

Lemma convert_layer_frame_witness :
  outcome (convert_layer sample_externals c2 3
             (np.zeros2 czero N_layers 6, None)) = Ok sample_iteration ∧
  ∃ m r lm,
    c2 !! 3%nat = Some m ∧ sample_c2_to_nlm m = Ok (r, lm) ∧
    sample_iteration.2 = Some lm ∧
    sample_iteration.1 !! 3%nat = Some (vec_to_list r) ∧
    length sample_iteration.1 = length (np.zeros2 czero N_layers 6) ∧
    ∀ j, j ≠ 3%nat →
      sample_iteration.1 !! j = np.zeros2 czero N_layers 6 !! j.
Proof.
  assert (Hrun : outcome (convert_layer sample_externals c2 3
             (np.zeros2 czero N_layers 6, None)) = Ok sample_iteration).
  { vm_compute. reflexivity. }
  split; [exact Hrun|].
  exact (convert_layer_frame sample_externals c2 3 _ _ Hrun).
Defined.

(** ** A conversion that fails *)

Section failure.
Context {LM Stack Returns Eigvals Frame A2 Plt : Type}.
Variable ext : Externals LM Stack Returns Eigvals Frame A2 Plt.

(** The iterations before the first failure each log one successful
    call and keep the shape of [nlm]. *)
Lemma loop_prefix_runs (n start : nat) s rest :
  (start + n ≤ N_layers)%nat →
  has_shape N_layers 6 s.1 →
  (∀ ii m, (start ≤ ii < start + n)%nat → c2 !! ii = Some m →
           ∃ p, c2_to_nlm ext m = Ok p) →
  ∃ s', has_shape N_layers 6 s'.1 ∧
        for_each (convert_layer ext c2) (seq start n ++ rest) s
        = mkM (replicate n (call_c2_to_nlm, None)
                 ++ trace (for_each (convert_layer ext c2) rest s'))
              (outcome (for_each (convert_layer ext c2) rest s')).
Proof.
  revert start s. induction n as [|n IH]; intros start s Hn Hshape Hok.
  - exists s. split; [done|]. simpl.
    by destruct (for_each (convert_layer ext c2) rest s).
  - destruct (lookup_c2 start) as (l & _ & Hm); [lia|].
    destruct (Hok start _ ltac:(lia) Hm) as [[row lm] Hcall].
    destruct (has_shape_lookup _ _ _ start Hshape) as (old & Hold & Hlen); [lia|].
    destruct (IH (S start) (<[start := vec_to_list row]> s.1, Some lm))
      as (s' & Hshape' & Hrun).
    + lia.
    + apply has_shape_insert; [done|apply length_vec_to_list].
    + intros ii m Hii. apply Hok. lia.
    + exists s'. split; [done|].
      change (seq start (S n) ++ rest) with (start :: (seq (S start) n ++ rest)).
      cbn [for_each].
      rewrite (convert_layer_returns ext c2 start s _ row lm old Hm Hcall Hold Hlen).
      rewrite (bind_ok _ _ (<[start := vec_to_list row]> s.1, Some lm)) by done.
      by rewrite Hrun.
Qed.


End failure.

Lemma strict_accepts_upper_layers ii m :
  (ii < 75)%nat → c2 !! ii = Some m → ∃ p, strict_c2_to_nlm m = Ok p.
Proof.
  intros Hii Hm.
  assert (Hall : forallb (λ m, match strict_c2_to_nlm m with
                               | Ok _ => true
                               | Raise _ => false
                               end) (take 75 c2) = true).
  { vm_compute. reflexivity. }
  rewrite forallb_forall in Hall. specialize (Hall m).
  destruct (strict_c2_to_nlm m) as [p|e]; [by exists p|].
  discriminate Hall. apply list_elem_of_In, list_elem_of_lookup.
  exists ii. by rewrite lookup_take_lt.
Qed.


(** ** Libraries that never raise *)

Lemma quiet_bind {A B} (m : M A) (k : A → M B) :
  quiet (trace m) → (∀ a, quiet (trace (k a))) → quiet (trace (m ≫= k)).
Proof.
  intros Hm Hk. unfold mbind, M_bind. destruct (outcome m); simpl; [|done].
  apply Forall_app. split; [done|apply Hk].
Qed.

Lemma quiet_extern {A} c (r : result A) :
  (∃ a, r = Ok a) → quiet (trace (extern c r)).
Proof. intros [a ->]. by repeat constructor. Qed.

Lemma quiet_step {A} (r : result A) : quiet (trace (step r)).
Proof. constructor. Qed.

(** ** The isotropy override and the plotting loop *)

Lemma isotropic_row_fixed (row : list complex) :
  let row' := take 1 row ++ replicate (length row - 1) czero in
  take 1 row' ++ replicate (length row' - 1) czero = row' ∧
  length row' = length row.
Proof.
  destruct row as [|x row]; simpl; [done|].
  rewrite length_replicate. by rewrite !Nat.sub_0_r.
Qed.



Section plotting.
Context {LM Stack Returns Eigvals Frame A2 Plt : Type}.
Variable ext : Externals LM Stack Returns Eigvals Frame A2 Plt.

Lemma plot_layer_calls nlm lm (I : Z) i row zI u :
  py_index (length nlm) I = Some i → nlm !! i = Some row →
  py_index (length z) I = Some i → z !! i = Some zI →
  plot_layer ext nlm (Some lm) I u
  = extern call_plot_ODF (plot_ODF ext row lm 2 (py_int (zI * (1 # 1000)))).
Proof.
  intros Hi Hrow Hiz Hz. unfold plot_layer, np.get, name.
  rewrite Hi, Hrow, step_bind.
  change (mret lm) with (step (Ok lm)). rewrite step_bind.
  by rewrite Hiz, Hz, step_bind.
Qed.

(** X10: the plotting loop shows the layers 1, 50 and 99 of [nlm], in
    this order, labelled with the depths 0, -1 and -2; the top layer is
    not among them.  It is the sequence of these three [plot_ODF]
    calls, and so stops at the first of them that raises. *)
Theorem plot_loop_layers nlm (lm : LM) r1 r50 r99 :
  length nlm = N_layers →
  nlm !! 1%nat = Some r1 → nlm !! 50%nat = Some r50 →
  nlm !! 99%nat = Some r99 →
  for_each (plot_layer ext nlm (Some lm))
    [1; py_int (inject_Z (Z.of_nat N_layers) / 2); -1]%Z ()
  = (extern call_plot_ODF (plot_ODF ext r1 lm 2 0);;
     extern call_plot_ODF (plot_ODF ext r50 lm 2 (-1));;
     extern call_plot_ODF (plot_ODF ext r99 lm 2 (-2))).
Proof.
  intros Hlen H1 H50 H99.
  assert (Hz1 : ∃ v, z !! 1%nat = Some v ∧ py_int (v * (1 # 1000)) = 0%Z).
  { eexists. split; vm_compute; reflexivity. }
  assert (Hz50 : ∃ v, z !! 50%nat = Some v ∧ py_int (v * (1 # 1000)) = (-1)%Z).
  { eexists. split; vm_compute; reflexivity. }
  assert (Hz99 : ∃ v, z !! 99%nat = Some v ∧ py_int (v * (1 # 1000)) = (-2)%Z).
  { eexists. split; vm_compute; reflexivity. }
  destruct Hz1 as (v1 & Hv1 & Hl1), Hz50 as (v50 & Hv50 & Hl50),
    Hz99 as (v99 & Hv99 & Hl99).
  cbn [for_each].
  rewrite (plot_layer_calls nlm lm 1 1 r1 v1), Hl1;
    [|by rewrite Hlen|done|by rewrite length_z|done].
  apply bind_ext. intros [].
  rewrite (plot_layer_calls nlm lm _ 50 r50 v50), Hl50;
    [|by rewrite Hlen|done|by rewrite length_z|done].
  apply bind_ext. intros [].
  rewrite (plot_layer_calls nlm lm (-1) 99 r99 v99), Hl99;
    [|by rewrite Hlen|done|by rewrite length_z|done].
  apply bind_ret.
Qed.

End plotting.

Lemma plot_loop_layers_witness :
  length (a_nlm sample_final) = N_layers ∧
  a_nlm sample_final !! 1%nat
    = Some (default [] (a_nlm sample_final !! 1%nat)) ∧
  a_nlm sample_final !! 50%nat
    = Some (default [] (a_nlm sample_final !! 50%nat)) ∧
  a_nlm sample_final !! 99%nat
    = Some (default [] (a_nlm sample_final !! 99%nat)) ∧
  for_each (plot_layer sample_externals (a_nlm sample_final) (Some ()))
    [1; py_int (inject_Z (Z.of_nat N_layers) / 2); -1]%Z ()
  = (extern call_plot_ODF (Ok ());; extern call_plot_ODF (Ok ());;
     extern call_plot_ODF (Ok ())).
Proof.
  assert (Hlen : length (a_nlm sample_final) = N_layers).
  { vm_compute. reflexivity. }
  assert (H1 : a_nlm sample_final !! 1%nat
               = Some (default [] (a_nlm sample_final !! 1%nat))).
  { vm_compute. reflexivity. }
  assert (H50 : a_nlm sample_final !! 50%nat
                = Some (default [] (a_nlm sample_final !! 50%nat))).
  { vm_compute. reflexivity. }
  assert (H99 : a_nlm sample_final !! 99%nat
                = Some (default [] (a_nlm sample_final !! 99%nat))).
  { vm_compute. reflexivity. }
  split_and!; [exact Hlen|exact H1|exact H50|exact H99|].
  exact (plot_loop_layers sample_externals _ () _ _ _ Hlen H1 H50 H99).
Defined.

(** * The notebook against untyped libraries *)

(** ** Runs against any library *)

Lemma tame_of_sound {A} (P : A → Prop) (m : M A) : sound P m → tame P m.
Proof. unfold sound, tame. destruct (outcome m); [done|by left]. Qed.

Section tame.
Context {A B : Type}.

Lemma tame_ret (P : A → Prop) a : P a → tame P (mret a).
Proof. intros HP. split; [constructor|done]. Qed.

Lemma tame_step (P : A → Prop) (r : result A) :
  (∀ a, r = Ok a → P a) → (∀ e, r = Raise e → misfit e) → tame P (step r).
Proof.
  intros HP He. destruct r as [a|e]; unfold tame; simpl.
  - split; [constructor|by apply HP].
  - right. split; [constructor|by apply He].
Qed.

Lemma tame_extern (P : A → Prop) c r :
  (∀ a, r = Ok a → P a) → tame P (extern c r).
Proof. intros HP. by apply tame_of_sound, sound_extern. Qed.

Lemma tame_bind (P : A → Prop) (Q : B → Prop) (m : M A) (k : A → M B) :
  tame P m → (∀ a, P a → tame Q (k a)) → tame Q (m ≫= k).
Proof.
  destruct m as [t [a|e]]; unfold tame at 1; simpl.
  - intros [Ht HP] Hk. specialize (Hk a HP).
    unfold tame, mbind, M_bind in *; simpl.
    destruct (outcome (k a)) as [b|e].
    + destruct Hk as [Hq HQ]. split; [by apply Forall_app|done].
    + destruct Hk as [(t' & c & Heq & Hq)|[Hq Hmis]].
      * left. exists (t ++ t'), c. simpl. rewrite Heq, (assoc_L (++)).
        split; [done|by apply Forall_app].
      * right. split; [by apply Forall_app|done].
  - intros Hr _. exact Hr.
Qed.

Lemma tame_mono (P Q : A → Prop) (m : M A) :
  (∀ a, P a → Q a) → tame P m → tame Q m.
Proof.
  intros HPQ. unfold tame. destruct (outcome m); [|done].
  intros [? ?]. auto.
Qed.

(** In a tame run a call that raised is the last one, and its
    exception is the outcome. *)
Lemma tame_raised (P : A → Prop) (m : M A) c e :
  tame P m → (c, Some e) ∈ trace m →
  outcome m = Raise e ∧ ∃ t, trace m = t ++ [(c, Some e)] ∧ quiet t.
Proof.
  destruct m as [tr o]. unfold tame, raised_by_library; simpl.
  intros Htame Hin.
  assert (Hnot : quiet tr → False).
  { intros Hq. by apply (proj1 (Forall_forall _ _) Hq) in Hin. }
  destruct o as [a|e']; [by destruct Htame|].
  destruct Htame as [(t & c' & -> & Hq)|[Hq _]]; [|done].
  apply elem_of_app in Hin as [Hin|Hin].
  - by apply (proj1 (Forall_forall _ _) Hq) in Hin.
  - apply list_elem_of_singleton in Hin. injection Hin as -> ->.
    split; [done|]. by exists t.
Qed.

End tame.

Lemma tame_for_each_seq {St} (Inv : nat → St → Prop)
    (body : nat → St → M St) (start n : nat) (s : St) :
  Inv start s →
  (∀ i s, (start ≤ i < start + n)%nat → Inv i s →
          tame (Inv (i + 1)%nat) (body i s)) →
  tame (Inv (start + n)%nat) (for_each body (seq start n) s).
Proof.
  revert start s. induction n as [|n IH]; intros start s Hs Hbody; simpl.
  - apply tame_ret. by rewrite Nat.add_0_r.
  - eapply tame_bind; [apply Hbody; [lia|done]|].
    intros s' Hs'. replace (start + S n)%nat with (S start + n)%nat by lia.
    apply IH; [by rewrite Nat.add_1_r in Hs'|].
    intros i s'' Hi. apply Hbody. lia.
Qed.

Lemma misfit_ValueError : misfit ValueError.
Proof. by left. Qed.

Lemma misfit_TypeError : misfit (OtherError "TypeError").
Proof. right. by left. Qed.

Lemma misfit_AttributeError : misfit (OtherError "AttributeError").
Proof. right. by right. Qed.

Lemma attr_tame {A} (v : option A) :
  tame (λ a, v = Some a) (step (attr v)).
Proof.
  apply tame_step.
  - destruct v as [x|]; [by intros a [= ->]|done].
  - destruct v as [x|]; [done|]. intros e [= <-]. apply misfit_AttributeError.
Qed.

Section raw_run.
Context {Obj Stack Returns Zs Plt : Type}.
Variable lib : RawExternals Obj Stack Returns Zs Plt.

(** The row write of line 50 keeps the shape of [nlm] when it succeeds,
    and fails only on the value it is given. *)
Lemma assign_item_tame nlm ii (v : item Obj) :
  (ii < N_layers)%nat → has_shape N_layers 6 nlm →
  tame (has_shape N_layers 6) (step (assign_item nlm ii v)).
Proof.
  intros Hii Hshape.
  destruct (has_shape_lookup _ _ _ ii Hshape Hii) as (row & Hrow & Hrlen).
  apply tame_step; unfold assign_item, np.assign_row, np.get;
    rewrite Hrow; simpl.
  - destruct v as [a|o]; [|done].
    destruct a as [|x [|y a]].
    + case_decide as Hl; [|done]. intros nlm' [= <-].
      apply has_shape_insert; [done|]. by rewrite Hl.
    + intros nlm' [= <-]. apply has_shape_insert; [done|].
      by rewrite length_replicate.
    + case_decide as Hl; [|done]. intros nlm' [= <-].
      apply has_shape_insert; [done|]. by rewrite Hl.
  - destruct v as [a|o].
    + destruct a as [|x [|y a]]; try done;
        (case_decide; [done|]); intros e [= <-]; apply misfit_ValueError.
    + intros e [= <-]. apply misfit_TypeError.
Qed.

Lemma raw_convert_layer_tame (i : nat) s :
  (i < N_layers)%nat → has_shape N_layers 6 s.1 →
  tame (λ s', has_shape N_layers 6 s'.1 ∧ is_Some s'.2)
    (raw_convert_layer lib c2 i s).
Proof.
  intros Hi Hshape. unfold raw_convert_layer.
  destruct (lookup_c2 i Hi) as (l & _ & Hm).
  unfold np.get. rewrite Hm, step_bind.
  eapply tame_bind; [by apply (tame_extern (λ _, True))|]. intros vs _.
  eapply tame_bind.
  { apply (tame_step (λ _, True)); [done|].
    intros e. destruct vs as [|x [|y [|w vs]]]; try done;
      intros [= <-]; apply misfit_ValueError. }
  intros [first lm] _.
  eapply tame_bind; [by apply assign_item_tame|].
  intros nlm Hnlm. apply tame_ret. simpl. by split.
Qed.

Lemma raw_conversion_loop_tame :
  tame (λ s, has_shape N_layers 6 s.1 ∧ is_Some s.2)
    (raw_conversion_loop lib c2).
Proof.
  unfold raw_conversion_loop, np.arange.
  pose (Inv := λ (k : nat) (s : list (list complex) * option (item Obj)),
               has_shape N_layers 6 s.1 ∧ ((0 < k)%nat → is_Some s.2)).
  apply (tame_mono (Inv (0 + N_layers)%nat)).
  { intros s [Hshape Hlm]. split; [done|]. apply Hlm. unfold N_layers. lia. }
  apply (tame_for_each_seq Inv _ 0 N_layers).
  - split; simpl; [apply has_shape_zeros2|lia].
  - intros i s [_ Hi] [Hshape _].
    eapply tame_mono; [|by apply raw_convert_layer_tame].
    intros s' [? ?]. by split.
Qed.

Lemma raw_plot_layer_sound nlm lm (I : Z) :
  has_shape N_layers 6 nlm → is_Some lm →
  I ∈ [1; py_int (inject_Z (Z.of_nat N_layers) / 2); -1]%Z →
  sound (λ _, True) (raw_plot_layer lib nlm lm I ()).
Proof.
  intros Hshape [lm' ->] HI. unfold raw_plot_layer.
  assert (∃ i, (i < N_layers)%nat ∧ py_index N_layers I = Some i)
    as (i & Hi & Hidx).
  { repeat (apply elem_of_cons in HI as [->|HI]);
      [exists 1%nat|exists 50%nat|exists 99%nat|by apply elem_of_nil in HI];
      (split; [unfold N_layers; lia|reflexivity]). }
  destruct (has_shape_lookup _ _ _ i Hshape Hi) as (row & Hrow & _).
  destruct (lookup_lt_is_Some_2 z i) as [zI HzI]; [by rewrite length_z|].
  destruct Hshape as [Hlen _]. rewrite Hlen, length_z, Hidx.
  unfold np.get. rewrite Hrow, HzI, step_bind.
  change (name (Some lm')) with (step (Ok lm')). rewrite !step_bind.
  by apply sound_extern.
Qed.

(** After the loop: the override and the three plots cannot fail on
    their own. *)
Lemma raw_cell1_rest_sound nlm lm c2' :
  has_shape N_layers 6 nlm → is_Some lm →
  sound (λ a, has_shape N_layers 6 (a_nlm a))
    (nlm' ← step (force_isotropic nlm);
     for_each (raw_plot_layer lib nlm' lm)
       [1; py_int (inject_Z (Z.of_nat N_layers) / 2); -1]%Z ();;
     mret {| a_z := z; a_c2 := c2'; a_lambdavec := lambdavec;
             a_nlm := nlm'; a_lm := lm |}).
Proof.
  intros Hshape Hlm.
  destruct (has_shape_lookup _ _ _ 0 Hshape) as (row & Hrow & Hrlen).
  { unfold N_layers. lia. }
  rewrite (force_isotropic_ok _ row Hrow), step_bind.
  assert (Hshape' : has_shape N_layers 6
    (<[0%nat := take 1 row ++ replicate (length row - 1) czero]> nlm)).
  { apply has_shape_insert; [done|].
    rewrite length_app, length_take, length_replicate. lia. }
  eapply sound_bind.
  { apply (sound_for_each (λ _, True)); [done|].
    intros I [] HI _. by apply raw_plot_layer_sound. }
  intros _ _. by apply sound_ret.
Qed.

Lemma raw_cell1_tame :
  tame (λ a, has_shape N_layers 6 (a_nlm a)) (raw_cell1 lib).
Proof.
  unfold raw_cell1. rewrite c2_profile_ok, <- c2_eq, step_bind.
  eapply tame_bind; [apply raw_conversion_loop_tame|].
  intros [nlm lm] [Hshape Hlm]. simpl in Hshape, Hlm.
  by apply tame_of_sound, raw_cell1_rest_sound.
Qed.

Lemma raw_cell2_tame a : tame (λ _, True) (raw_cell2 lib a).
Proof.
  unfold raw_cell2.
  eapply tame_bind; [by apply (tame_extern (λ _, True))|]. intros lstack _.
  eapply tame_bind; [apply attr_tame|]. intros get_returns _.
  eapply tame_bind; [by apply (tame_extern (λ _, True))|]. intros returns _.
  eapply tame_bind; [apply attr_tame|]. intros get_eigenbasis _.
  eapply tame_bind; [by apply (tame_extern (λ _, True))|]. intros vs _.
  eapply tame_bind.
  { apply (tame_step (λ _, True)); [done|]. intros e.
    destruct vs as [|x1 [|x2 [|x3 [|x4 [|x5 [|x6 vs]]]]]]; try done;
      intros [= <-]; apply misfit_ValueError. }
  intros [[[[eigvals e1] e2] e3] a2] _.
  eapply tame_bind; [apply attr_tame|]. intros zs _.
  eapply tame_bind; [by apply (tame_extern (λ _, True))|]. intros ps _.
  eapply tame_bind.
  { apply (tame_step (λ _, True)); [done|]. intros e.
    destruct ps; [|done]. intros [= <-]. apply misfit_ValueError. }
  intros plt _.
  eapply tame_bind; [apply attr_tame|]. intros show _.
  by apply tame_extern.
Qed.

Lemma raw_notebook_tame : tame (λ _, True) (raw_notebook lib).
Proof.
  unfold raw_notebook. eapply tame_bind; [apply raw_cell1_tame|].
  intros a _. eapply tame_bind; [apply raw_cell2_tame|].
  intros _ _. by apply tame_ret.
Qed.

(** ** Values of the expected form *)

Lemma assign_item_fits nlm ii a :
  (ii < N_layers)%nat → has_shape N_layers 6 nlm →
  length a = 6%nat ∨ length a = 1%nat →
  ∃ nlm', assign_item nlm ii (ItemArray (Obj := Obj) a) = Ok nlm' ∧
          has_shape N_layers 6 nlm'.
Proof.
  intros Hii Hshape Hlen.
  destruct (has_shape_lookup _ _ _ ii Hshape Hii) as (row & Hrow & Hrlen).
  destruct Hlen as [Hlen|Hlen].
  - exists (<[ii := a]> nlm). split; [|by apply has_shape_insert].
    apply (assign_row_ok _ _ _ row); [done|]. by rewrite Hlen, Hrlen.
  - destruct a as [|v [|w a]]; try done.
    exists (<[ii := replicate (length row) v]> nlm). split.
    + unfold assign_item, np.assign_row, np.get. by rewrite Hrow.
    + apply has_shape_insert; [done|]. by rewrite length_replicate.
Qed.

Hypothesis Hshaped : well_shaped lib.

Lemma raw_convert_layer_sound (i : nat) s :
  (i < N_layers)%nat → has_shape N_layers 6 s.1 →
  sound (λ s', has_shape N_layers 6 s'.1 ∧ is_Some s'.2)
    (raw_convert_layer lib c2 i s).
Proof.
  intros Hi Hshape. destruct Hshaped as (Hc & _). unfold raw_convert_layer.
  destruct (lookup_c2 i Hi) as (l & _ & Hm).
  unfold np.get. rewrite Hm, step_bind. eapply sound_bind.
  { apply (sound_extern (λ vs, fits_row vs)). intros vs. by apply (Hc i). }
  intros vs (a & lm & -> & Hlen).
  cbn [unpack2]. rewrite step_bind. cbv beta iota.
  destruct (assign_item_fits s.1 i a Hi Hshape Hlen) as (nlm' & -> & Hshape').
  rewrite step_bind. apply sound_ret. simpl. by split.
Qed.

Lemma raw_conversion_loop_sound :
  sound (λ s, has_shape N_layers 6 s.1 ∧ is_Some s.2)
    (raw_conversion_loop lib c2).
Proof.
  unfold raw_conversion_loop, np.arange.
  pose (Inv := λ (k : nat) (s : list (list complex) * option (item Obj)),
               has_shape N_layers 6 s.1 ∧ ((0 < k)%nat → is_Some s.2)).
  apply (sound_mono (Inv (0 + N_layers)%nat)).
  { intros s [Hshape Hlm]. split; [done|]. apply Hlm. unfold N_layers. lia. }
  apply (sound_for_each_seq Inv _ 0 N_layers).
  - split; simpl; [apply has_shape_zeros2|lia].
  - intros i s [_ Hi] [Hshape _].
    eapply sound_mono; [|by apply raw_convert_layer_sound].
    intros s' [? ?]. by split.
Qed.

Lemma raw_cell1_sound :
  sound (λ a, has_shape N_layers 6 (a_nlm a)) (raw_cell1 lib).
Proof.
  unfold raw_cell1. rewrite c2_profile_ok, <- c2_eq, step_bind.
  eapply sound_bind; [apply raw_conversion_loop_sound|].
  intros [nlm lm] [Hshape Hlm]. simpl in Hshape, Hlm.
  by apply raw_cell1_rest_sound.
Qed.

Lemma raw_cell2_sound a : sound (λ _, True) (raw_cell2 lib a).
Proof.
  destruct Hshaped as (_ & Hstack & Hplot). unfold raw_cell2.
  eapply sound_bind.
  { apply (sound_extern (λ st, ∃ n zs k a c s,
             raw_LayerStack lib n zs k a c s = Ok st)). eauto 10. }
  intros lstack (n & zs & k & a' & c & s & Hst).
  destruct (Hstack _ _ _ _ _ _ _ Hst) as ([zv Hz] & [g Hg] & ge & Hge & Hfive).
  rewrite Hg, Hge, Hz. simpl attr. rewrite step_bind.
  eapply sound_bind; [by apply (sound_extern (λ _, True))|]. intros returns _.
  rewrite step_bind. eapply sound_bind.
  { apply (sound_extern (λ vs, length vs = 5%nat)). apply Hfive. }
  intros vs Hvs.
  destruct vs as [|x1 [|x2 [|x3 [|x4 [|x5 [|x6 vs]]]]]]; try done.
  simpl unpack5. rewrite !step_bind. eapply sound_bind.
  { apply (sound_extern (λ ps, ∃ p rest, ps = p :: rest ∧
                                is_Some (raw_show lib p))). apply Hplot. }
  intros ps (p & rest & -> & [sh Hsh]). simpl unpack_first.
  rewrite step_bind, Hsh. simpl attr. rewrite step_bind.
  by apply sound_extern.
Qed.

Lemma raw_notebook_sound : sound (λ _, True) (raw_notebook lib).
Proof.
  unfold raw_notebook. eapply sound_bind; [apply raw_cell1_sound|].
  intros a _. eapply sound_bind; [apply raw_cell2_sound|].
  intros _ _. by apply sound_ret.
Qed.

End raw_run.


Lemma raw_failing_well_shaped : well_shaped raw_failing.
Proof.
  split_and!.
  - intros ii m vs _ [= <-]. eexists _, _. split; [done|by left].
  - intros n zs k a c s st _. split_and!; [done..|].
    eexists. split; [done|]. by intros vs [= <-].
  - intros zs r a v ps [= <-]. by eexists _, _.
Qed.



(** ** Libraries that never raise *)

Lemma quiet_attr_bind {A B} (v : option A) (k : A → M B) :
  (∀ a, v = Some a → quiet (trace (k a))) →
  quiet (trace (step (attr v) ≫= k)).
Proof.
  intros Hk. destruct v as [a|]; simpl attr.
  - rewrite step_bind. by apply Hk.
  - constructor.
Qed.

Section raw_completion.
Context {Obj Stack Returns Zs Plt : Type}.
Variable lib : RawExternals Obj Stack Returns Zs Plt.
Hypothesis Hnever : never_raises lib.

Lemma raw_notebook_quiet : quiet (trace (raw_notebook lib)).
Proof.
  destruct Hnever as (Hc & Hp & Hl & Hr & He & Hpr & Hs).
  unfold raw_notebook. apply quiet_bind; [|intros a; apply quiet_bind].
  - unfold raw_cell1. apply quiet_bind; [apply quiet_step|]. intros c2'.
    apply quiet_bind.
    { apply for_each_calls. intros i s. unfold raw_convert_layer.
      apply quiet_bind; [apply quiet_step|]. intros m.
      apply quiet_bind; [apply quiet_extern, Hc|]. intros vs.
      apply quiet_bind; [apply quiet_step|]. intros [first lm].
      apply quiet_bind; [apply quiet_step|]. intros; constructor. }
    intros [nlm lm]. apply quiet_bind; [apply quiet_step|]. intros nlm'.
    apply quiet_bind; [|intros; constructor].
    apply for_each_calls. intros I u. unfold raw_plot_layer.
    apply quiet_bind; [apply quiet_step|]. intros row.
    apply quiet_bind; [destruct lm; constructor|]. intros lm'.
    apply quiet_bind; [apply quiet_step|]. intros zI.
    apply quiet_extern. eexists. apply Hp.
  - unfold raw_cell2.
    apply quiet_bind; [apply quiet_extern, Hl|]. intros lstack.
    apply quiet_attr_bind. intros g Hg.
    apply quiet_bind; [by apply quiet_extern, (Hr lstack)|]. intros returns.
    apply quiet_attr_bind. intros ge Hge.
    apply quiet_bind; [by apply quiet_extern, (He lstack)|]. intros vs.
    apply quiet_bind; [apply quiet_step|].
    intros [[[[eigvals e1] e2] e3] a2].
    apply quiet_bind; [apply quiet_step|]. intros zs.
    apply quiet_bind; [apply quiet_extern, Hpr|]. intros ps.
    apply quiet_bind; [apply quiet_step|]. intros plt.
    apply quiet_attr_bind. intros sh Hsh.
    apply quiet_extern. eexists. by apply (Hs plt).
  - intros; constructor.
Qed.

End raw_completion.


Lemma raw_sample_never_raises : never_raises raw_sample.
Proof.
  split_and!; try (intros; by eexists); try done.
  - intros st g a b c [= <-]. by eexists.
  - intros st ge [= <-]. by eexists.
  - by intros p sh [= <-].
Qed.

Lemma raw_sample_well_shaped : well_shaped raw_sample.
Proof.
  split_and!.
  - intros ii m vs _ [= <-]. eexists _, _. split; [done|by left].
  - intros n zs k a c s st _. split_and!; [done..|].
    eexists. split; [done|]. by intros vs [= <-].
  - intros zs r a v ps [= <-]. by eexists _, _.
Qed.

